(** * arduino_smpte_clock: the LTC generator and its MIDI timecode glue

    A shallow embedding of [arduino_smpte_clock.ino].  The sketch keeps
    all of its state in [volatile] globals that are mutated by two
    interrupt handlers ([TIMER1_COMPA_vect], [USART_RX_vect]) and by the
    foreground [loop].  Here the globals become one record, every
    [void f(void)] becomes a function from record to record, and the
    hardware registers the code touches ([OCR2A], the bytes written to
    [UDR0]) are fields of the same record.

    [unsigned char] and [uint8_t] values are integers of [Z]; each place
    where C narrows a result back to eight bits is written [u8].

    The file in the repository holds several successive revisions of the
    sketch.  The embedding follows the last one.  The only difference that
    matters below is the frame rate: the last revision fixes it with
    [#define FPS 30], the menu revision reads the global [selectedFPS];
    both are covered by taking the rate as the parameter [FPS].  The
    menu that the third revision adds is embedded in the module [Menu]. *)

From Stdlib Require Import ZArith List Bool Lia.
From Stdlib Require Ascii String.
Import ListNotations.
Local Open Scope Z_scope.

(** ** Constants of the sketch *)

Definition highLevel : Z := 82.
Definition lowLevel : Z := 44.
Definition groundLevel : Z := 63.

Definition TRANSPORT_STOPPED : Z := 0.
Definition TRANSPORT_RUNNING : Z := 1.
Definition TRANSPORT_PAUSED : Z := 2.

Definition MIDI_TIME_CODE_QUARTER_FRAME : Z := 0xF1.

(** Narrowing to [unsigned char]. *)
Definition u8 (x : Z) : Z := x mod 256.

(** ** The globals *)

Record state : Type := mkState {
  hourCount : Z;
  minuteCount : Z;
  secondCount : Z;
  frameCount : Z;
  bitCount : Z;
  currentBit : Z;
  lastLevel : Z;
  clockStarted : bool;
  clockPaused : bool;
  transportState : Z;
  mtcQuarterFrame : list Z;   (* unsigned char mtcQuarterFrame[8] *)
  mtcFrameCounter : Z;
  ppq : Z;
  OCR2A : Z;                  (* PWM compare register: the line level *)
  UDR0_sent : list Z          (* bytes written to UDR0, oldest first *)
}.

Definition set_hourCount (v : Z) (s : state) : state :=
  mkState v (minuteCount s) (secondCount s) (frameCount s) (bitCount s)
    (currentBit s) (lastLevel s) (clockStarted s) (clockPaused s)
    (transportState s) (mtcQuarterFrame s) (mtcFrameCounter s) (ppq s)
    (OCR2A s) (UDR0_sent s).

Definition set_minuteCount (v : Z) (s : state) : state :=
  mkState (hourCount s) v (secondCount s) (frameCount s) (bitCount s)
    (currentBit s) (lastLevel s) (clockStarted s) (clockPaused s)
    (transportState s) (mtcQuarterFrame s) (mtcFrameCounter s) (ppq s)
    (OCR2A s) (UDR0_sent s).

Definition set_secondCount (v : Z) (s : state) : state :=
  mkState (hourCount s) (minuteCount s) v (frameCount s) (bitCount s)
    (currentBit s) (lastLevel s) (clockStarted s) (clockPaused s)
    (transportState s) (mtcQuarterFrame s) (mtcFrameCounter s) (ppq s)
    (OCR2A s) (UDR0_sent s).

Definition set_frameCount (v : Z) (s : state) : state :=
  mkState (hourCount s) (minuteCount s) (secondCount s) v (bitCount s)
    (currentBit s) (lastLevel s) (clockStarted s) (clockPaused s)
    (transportState s) (mtcQuarterFrame s) (mtcFrameCounter s) (ppq s)
    (OCR2A s) (UDR0_sent s).

Definition set_bitCount (v : Z) (s : state) : state :=
  mkState (hourCount s) (minuteCount s) (secondCount s) (frameCount s) v
    (currentBit s) (lastLevel s) (clockStarted s) (clockPaused s)
    (transportState s) (mtcQuarterFrame s) (mtcFrameCounter s) (ppq s)
    (OCR2A s) (UDR0_sent s).

Definition set_currentBit (v : Z) (s : state) : state :=
  mkState (hourCount s) (minuteCount s) (secondCount s) (frameCount s)
    (bitCount s) v (lastLevel s) (clockStarted s) (clockPaused s)
    (transportState s) (mtcQuarterFrame s) (mtcFrameCounter s) (ppq s)
    (OCR2A s) (UDR0_sent s).

Definition set_lastLevel (v : Z) (s : state) : state :=
  mkState (hourCount s) (minuteCount s) (secondCount s) (frameCount s)
    (bitCount s) (currentBit s) v (clockStarted s) (clockPaused s)
    (transportState s) (mtcQuarterFrame s) (mtcFrameCounter s) (ppq s)
    (OCR2A s) (UDR0_sent s).

Definition set_clockStarted (v : bool) (s : state) : state :=
  mkState (hourCount s) (minuteCount s) (secondCount s) (frameCount s)
    (bitCount s) (currentBit s) (lastLevel s) v (clockPaused s)
    (transportState s) (mtcQuarterFrame s) (mtcFrameCounter s) (ppq s)
    (OCR2A s) (UDR0_sent s).

Definition set_clockPaused (v : bool) (s : state) : state :=
  mkState (hourCount s) (minuteCount s) (secondCount s) (frameCount s)
    (bitCount s) (currentBit s) (lastLevel s) (clockStarted s) v
    (transportState s) (mtcQuarterFrame s) (mtcFrameCounter s) (ppq s)
    (OCR2A s) (UDR0_sent s).

Definition set_transportState (v : Z) (s : state) : state :=
  mkState (hourCount s) (minuteCount s) (secondCount s) (frameCount s)
    (bitCount s) (currentBit s) (lastLevel s) (clockStarted s)
    (clockPaused s) v (mtcQuarterFrame s) (mtcFrameCounter s) (ppq s)
    (OCR2A s) (UDR0_sent s).

Definition set_mtcQuarterFrame (v : list Z) (s : state) : state :=
  mkState (hourCount s) (minuteCount s) (secondCount s) (frameCount s)
    (bitCount s) (currentBit s) (lastLevel s) (clockStarted s)
    (clockPaused s) (transportState s) v (mtcFrameCounter s) (ppq s)
    (OCR2A s) (UDR0_sent s).

Definition set_OCR2A (v : Z) (s : state) : state :=
  mkState (hourCount s) (minuteCount s) (secondCount s) (frameCount s)
    (bitCount s) (currentBit s) (lastLevel s) (clockStarted s)
    (clockPaused s) (transportState s) (mtcQuarterFrame s)
    (mtcFrameCounter s) (ppq s) v (UDR0_sent s).

Definition set_UDR0_sent (v : list Z) (s : state) : state :=
  mkState (hourCount s) (minuteCount s) (secondCount s) (frameCount s)
    (bitCount s) (currentBit s) (lastLevel s) (clockStarted s)
    (clockPaused s) (transportState s) (mtcQuarterFrame s)
    (mtcFrameCounter s) (ppq s) (OCR2A s) v.

(** The four counter fields, in the order hours, minutes, seconds,
    frames. *)
Definition timecode (s : state) : Z * Z * Z * Z :=
  (hourCount s, minuteCount s, secondCount s, frameCount s).

(** The state after reset: C zero-initialises the globals, except [ppq]
    which is initialised to 24.  The reset value of the hardware register
    [OCR2A] is not fixed by the sketch, so it is an argument. *)
Definition boot (ocr2a : Z) : state :=
  mkState 0 0 0 0 0 0 0 false false TRANSPORT_STOPPED
    [0; 0; 0; 0; 0; 0; 0; 0] 0 24 ocr2a [].

(** Every eight-bit global holds an eight-bit value. *)
Definition byte (x : Z) : Prop := 0 <= x < 256.

Definition bytes_ok (s : state) : Prop :=
  byte (hourCount s) /\ byte (minuteCount s) /\ byte (secondCount s) /\
  byte (frameCount s) /\ byte (bitCount s).

(** ** The line-level encoder: [setLTCLevel] *)

(** [>>] is the shift of [Z]: a count past the width of the counter
    selects a 0 bit.  [bitCount % 4] and the subtractions are on values
    that are not negative. *)

Definition setLTCLevel (s : state) : state :=
  if bitCount s <? 80 then
    let bit :=
      if bitCount s <? 32 then
        Z.land (Z.shiftr (frameCount s) (bitCount s mod 4)) 1
      else if bitCount s <? 40 then
        Z.land (Z.shiftr (secondCount s) (bitCount s - 32)) 1
      else if bitCount s <? 48 then
        Z.land (Z.shiftr (minuteCount s) (bitCount s - 40)) 1
      else
        Z.land (Z.shiftr (hourCount s) (bitCount s - 48)) 1 in
    let s1 := set_currentBit (u8 bit) s in
    let s2 :=
      if currentBit s1 =? 0 then set_OCR2A lowLevel s1
      else set_OCR2A highLevel s1 in
    let s3 := set_lastLevel (currentBit s2) s2 in
    set_bitCount (u8 (bitCount s3 + 1)) s3
  else
    set_OCR2A groundLevel (set_bitCount 0 s).

(** ** The timecode counter and the fast tick *)

Section FrameRate.

(** Frames per second: [FPS] in the last revision, [selectedFPS] in the
    menu revision.  The comparison [frameCount < FPS - 1] is done in
    [int], so the subtraction does not wrap. *)
Variable FPS : Z.

Definition timeUpdate (s : state) : state :=
  if frameCount s <? FPS - 1 then
    set_frameCount (u8 (frameCount s + 1)) s
  else
    let s := set_frameCount 0 s in
    if secondCount s <? 59 then
      set_secondCount (u8 (secondCount s + 1)) s
    else
      let s := set_secondCount 0 s in
      if minuteCount s <? 59 then
        set_minuteCount (u8 (minuteCount s + 1)) s
      else
        let s := set_minuteCount 0 s in
        if hourCount s <? 23 then
          set_hourCount (u8 (hourCount s + 1)) s
        else
          set_hourCount 0 s.

(** [ISR(TIMER1_COMPA_vect)]: one invocation per bit cell. *)
Definition TIMER1_COMPA_vect (s : state) : state :=
  if negb (clockPaused s) && clockStarted s then
    let s := setLTCLevel s in
    if bitCount s =? 80 then timeUpdate s else s
  else s.

End FrameRate.

(** ** MIDI output: [sendMIDIByte] and [sendMTCQuarterFrame] *)

(** [sendMIDIByte] spins until the transmit buffer is empty and then
    writes the byte to [UDR0].  The USART's promise that the buffer
    empties is the hardware's; the effect of the call is the write. *)
Definition sendMIDIByte (b : Z) (s : state) : state :=
  set_UDR0_sent (UDR0_sent s ++ [u8 b]) s.

Definition sendMTCQuarterFrame (s : state) : state :=
  let frameNibble := u8 (Z.land (frameCount s) 0x0F) in
  let secondNibble := u8 (Z.land (secondCount s) 0x0F) in
  let minuteNibble := u8 (Z.land (minuteCount s) 0x0F) in
  let hourNibble := u8 (Z.land (hourCount s) 0x1F) in
  let s := sendMIDIByte (Z.lor MIDI_TIME_CODE_QUARTER_FRAME 0x00) s in
  let s := sendMIDIByte frameNibble s in
  let s := sendMIDIByte (Z.lor MIDI_TIME_CODE_QUARTER_FRAME 0x01) s in
  let s := sendMIDIByte (Z.shiftr frameNibble 4) s in
  let s := sendMIDIByte (Z.lor MIDI_TIME_CODE_QUARTER_FRAME 0x02) s in
  let s := sendMIDIByte secondNibble s in
  let s := sendMIDIByte (Z.lor MIDI_TIME_CODE_QUARTER_FRAME 0x03) s in
  let s := sendMIDIByte (Z.shiftr secondNibble 4) s in
  let s := sendMIDIByte (Z.lor MIDI_TIME_CODE_QUARTER_FRAME 0x04) s in
  let s := sendMIDIByte minuteNibble s in
  let s := sendMIDIByte (Z.lor MIDI_TIME_CODE_QUARTER_FRAME 0x05) s in
  let s := sendMIDIByte (Z.shiftr minuteNibble 4) s in
  let s := sendMIDIByte (Z.lor MIDI_TIME_CODE_QUARTER_FRAME 0x06) s in
  let s := sendMIDIByte hourNibble s in
  let s := sendMIDIByte (Z.lor MIDI_TIME_CODE_QUARTER_FRAME 0x07) s in
  sendMIDIByte (Z.shiftr hourNibble 4) s.

(** ** MIDI input: [ISR(USART_RX_vect)] *)

(** [a[i] = v] on a C array of [length a] cells.  A write past the end
    is undefined behaviour in C: it yields [None]. *)
Fixpoint array_set (i : nat) (v : Z) (a : list Z) : option (list Z) :=
  match a, i with
  | [], _ => None
  | _ :: t, O => Some (v :: t)
  | x :: t, S j => option_map (cons x) (array_set j v t)
  end.

(** [a[i]] for a constant index inside the array. *)
Definition array_get (i : nat) (a : list Z) : Z := nth i a 0.

(** The reassembly performed when slot 7 is written. *)
Definition reassemble (s : state) : state :=
  let q := mtcQuarterFrame s in
  let s := set_frameCount
             (u8 (Z.land (array_get 1 q) 0x0F +
                  Z.shiftl (Z.land (array_get 0 q) 0x01) 4)) s in
  let s := set_secondCount
             (u8 (Z.land (array_get 3 q) 0x0F +
                  Z.shiftl (Z.land (array_get 2 q) 0x03) 4)) s in
  let s := set_minuteCount
             (u8 (Z.land (array_get 5 q) 0x0F +
                  Z.shiftl (Z.land (array_get 4 q) 0x03) 4)) s in
  let s := set_hourCount
             (u8 (Z.land (array_get 7 q) 0x0F +
                  Z.shiftl (Z.land (array_get 6 q) 0x01) 4)) s in
  set_clockStarted true s.

(** The handler, invoked with the byte read from [UDR0]. *)
Definition USART_RX_vect (midiByte : Z) (s : state) : option state :=
  if Z.land midiByte 0xF0 =? MIDI_TIME_CODE_QUARTER_FRAME then
    let messageType := u8 (Z.land midiByte 0x0F) in
    let frameData := u8 (Z.shiftr midiByte 4) in
    match array_set (Z.to_nat messageType) frameData (mtcQuarterFrame s) with
    | None => None
    | Some q =>
        let s := set_mtcQuarterFrame q s in
        if messageType =? 7 then Some (reassemble s) else Some s
    end
  else Some s.

(** Feeding a sequence of bytes to the handler, one invocation each. *)
Fixpoint receive (bs : list Z) (s : state) : option state :=
  match bs with
  | [] => Some s
  | b :: bs' =>
      match USART_RX_vect b s with
      | Some s' => receive bs' s'
      | None => None
      end
  end.

(** ** The foreground: [loop] *)

(** One pass of [loop].  [start_pressed] is the value of
    [!(PIND & (1 << START_BUTTON_PIN))] and [stop_pressed] that of
    [!(PIND & (1 << STOP_BUTTON_PIN))] when the pass reads them.  A pass
    is one step: an interrupt that arrives during it is a step before or
    after it. *)
Definition loop (start_pressed stop_pressed : bool) (s : state) : state :=
  let s :=
    if start_pressed then
      if (transportState s =? TRANSPORT_STOPPED)
         || (transportState s =? TRANSPORT_PAUSED)
      then set_clockPaused false
             (set_clockStarted true
                (set_transportState TRANSPORT_RUNNING s))
      else s
    else s in
  let s :=
    if stop_pressed then
      if transportState s =? TRANSPORT_RUNNING
      then set_clockPaused true (set_transportState TRANSPORT_PAUSED s)
      else set_clockPaused false
             (set_clockStarted false
                (set_transportState TRANSPORT_STOPPED s))
    else s in
  if transportState s =? TRANSPORT_RUNNING then
    if negb (clockPaused s) then sendMTCQuarterFrame s else s
  else s.

(** ** The states the device can be in *)

(** Reset, then any interleaving of foreground passes, fast ticks and
    received bytes. *)
Inductive reachable (FPS : Z) : state -> Prop :=
| reach_boot : forall o, byte o -> reachable FPS (boot o)
| reach_loop : forall a b s,
    reachable FPS s -> reachable FPS (loop a b s)
| reach_tick : forall s,
    reachable FPS s -> reachable FPS (TIMER1_COMPA_vect FPS s)
| reach_rx : forall b s s',
    reachable FPS s -> byte b -> USART_RX_vect b s = Some s' ->
    reachable FPS s'.

(** ** Vocabulary of the properties *)

(** The bit the encoder is said to select at cursor position [c]: by
    range, a bit of the frame, second, minute or hour counter. *)
Definition selected_bit (s : state) (c : Z) : bool :=
  if c <? 32 then Z.testbit (frameCount s) (c mod 4)
  else if c <? 40 then Z.testbit (secondCount s) (c - 32)
  else if c <? 48 then Z.testbit (minuteCount s) (c - 40)
  else Z.testbit (hourCount s) (c - 48).

Definition level_of (b : bool) : Z := if b then highLevel else lowLevel.

(** State [s'] shows bit [b] as emitted: [currentBit] holds it and the
    output is at the high level for a 1, at the low level for a 0. *)
Definition emits (s' : state) (b : bool) : Prop :=
  currentBit s' = Z.b2z b /\
  OCR2A s' = (if b then highLevel else lowLevel).

(** The clock is started and not paused. *)
Definition running (s : state) : Prop :=
  clockStarted s = true /\ clockPaused s = false.

(** The sixteen bytes [sendMTCQuarterFrame] hands to [sendMIDIByte], in
    order. *)
Definition quarter_frame_bytes (s : state) : list Z :=
  let frameNibble := u8 (Z.land (frameCount s) 0x0F) in
  let secondNibble := u8 (Z.land (secondCount s) 0x0F) in
  let minuteNibble := u8 (Z.land (minuteCount s) 0x0F) in
  let hourNibble := u8 (Z.land (hourCount s) 0x1F) in
  [ u8 (Z.lor MIDI_TIME_CODE_QUARTER_FRAME 0x00); u8 frameNibble;
    u8 (Z.lor MIDI_TIME_CODE_QUARTER_FRAME 0x01); u8 (Z.shiftr frameNibble 4);
    u8 (Z.lor MIDI_TIME_CODE_QUARTER_FRAME 0x02); u8 secondNibble;
    u8 (Z.lor MIDI_TIME_CODE_QUARTER_FRAME 0x03); u8 (Z.shiftr secondNibble 4);
    u8 (Z.lor MIDI_TIME_CODE_QUARTER_FRAME 0x04); u8 minuteNibble;
    u8 (Z.lor MIDI_TIME_CODE_QUARTER_FRAME 0x05); u8 (Z.shiftr minuteNibble 4);
    u8 (Z.lor MIDI_TIME_CODE_QUARTER_FRAME 0x06); u8 hourNibble;
    u8 (Z.lor MIDI_TIME_CODE_QUARTER_FRAME 0x07); u8 (Z.shiftr hourNibble 4) ].

Section Clock.

Variable FPS : Z.

(** All four fields in range for the frame rate. *)
Definition valid (s : state) : Prop :=
  0 <= hourCount s < 24 /\ 0 <= minuteCount s < 60 /\
  0 <= secondCount s < 60 /\ 0 <= frameCount s < FPS.

(** Frames elapsed since 00:00:00:00. *)
Definition frame_number (s : state) : Z :=
  ((hourCount s * 60 + minuteCount s) * 60 + secondCount s) * FPS
  + frameCount s.

(** Frames in 24 hours. *)
Definition day : Z := FPS * 3600 * 24.

End Clock.

(** Seconds elapsed since 00:00:00. *)
Definition second_number (s : state) : Z :=
  (hourCount s * 60 + minuteCount s) * 60 + secondCount s.

(** Everything in the state but the counter. *)
Definition rest (s : state) : state :=
  set_hourCount 0 (set_minuteCount 0 (set_secondCount 0 (set_frameCount 0 s))).

(** ** Events and runs *)

(** What can happen to the device: a pass of [loop] with the two buttons
    as read, a fast tick, a byte arriving on the USART. *)
Inductive event : Type :=
| Pass (start_pressed stop_pressed : bool)
| Tick
| Receive (midiByte : Z).

Definition step (FPS : Z) (e : event) (s : state) : option state :=
  match e with
  | Pass a b => Some (loop a b s)
  | Tick => Some (TIMER1_COMPA_vect FPS s)
  | Receive b => USART_RX_vect b s
  end.

Fixpoint run (FPS : Z) (es : list event) (s : state) : option state :=
  match es with
  | [] => Some s
  | e :: es' =>
      match step FPS e s with
      | Some s' => run FPS es' s'
      | None => None
      end
  end.

(** The event is a pass of [loop] that reads the start button as
    pressed. *)
Definition presses_start (e : event) : bool :=
  match e with
  | Pass true _ => true
  | _ => false
  end.

(** What holds of the globals in every state the device reaches: the
    counter is a time of day, the cursor is within a frame, and the two
    flags say what the transport state says. *)
Definition consistent (FPS : Z) (s : state) : Prop :=
  valid FPS s /\
  0 <= bitCount s <= 80 /\
  (transportState s = TRANSPORT_STOPPED \/
   transportState s = TRANSPORT_RUNNING \/
   transportState s = TRANSPORT_PAUSED) /\
  clockStarted s = negb (transportState s =? TRANSPORT_STOPPED) /\
  clockPaused s = (transportState s =? TRANSPORT_PAUSED) /\
  mtcQuarterFrame s = [0; 0; 0; 0; 0; 0; 0; 0] /\
  byte (OCR2A s).

(** ** One frame on the line *)

(** The levels on [OCR2A] after each of the next [n] fast ticks. *)
Fixpoint tick_levels (FPS : Z) (n : nat) (s : state) : list Z :=
  match n with
  | O => []
  | S n' =>
      let s' := TIMER1_COMPA_vect FPS s in
      OCR2A s' :: tick_levels FPS n' s'
  end.

(** [c; c+1; ...], [n] cursor positions. *)
Fixpoint positions (c : Z) (n : nat) : list Z :=
  match n with
  | O => []
  | S n' => c :: positions (c + 1) n'
  end.

(** A listener's reading of the line: the bit of cell [i] is 1 when the
    level is [highLevel]; a field is the number whose bit [k] is the bit
    of cell [from + k]. *)
Definition cell_bit (levels : list Z) (i : nat) : bool :=
  nth i levels groundLevel =? highLevel.

Fixpoint bits_value (bs : list bool) : Z :=
  match bs with
  | [] => 0
  | b :: bs' => Z.b2z b + 2 * bits_value bs'
  end.

Definition field_value (levels : list Z) (from len : nat) : Z :=
  bits_value (map (fun k => cell_bit levels (from + k)) (seq 0 len)).

(** ** The revision with the menu *)

(** The third revision in the file adds an OLED menu, driven from
    [ISR(TIMER0_COMPA_vect)], to the transport and the encoder.  Its
    [setLTCLevel], [sendMTCQuarterFrame] and the transport part of its
    [loop] are, statement for statement, the ones above; its
    [timeUpdate] reads the frame rate from [selectedFPS].  It has no
    receive handler. *)
Module Menu.

Import Ascii String.

Definition MENU_MAIN : Z := 0.
Definition MENU_SMPTE_FPS : Z := 1.
Definition MENU_MIDI_PPQN : Z := 2.
Definition MENU_DISPLAY_TYPE : Z := 3.

Definition FPS_24 : Z := 24.
Definition FPS_25 : Z := 25.
Definition FPS_30 : Z := 30.
Definition FPS_2997 : Z := 29.

Definition smpteFpsOptions : list Z := [FPS_24; FPS_25; FPS_30; FPS_2997].
Definition smpteFpsLabels : list string :=
  ["24 FPS"; "25 FPS"; "30 FPS"; "29.97 FPS"]%string.

Definition midiPpqnOptions : list Z := [24; 48; 96; 120; 192].
Definition midiPpqnLabels : list string :=
  ["24 PPQN (Default)"; "48 PPQN"; "96 PPQN"; "120 PPQN"; "192 PPQN"]%string.

(** The globals of this revision: those of the encoder and transport
    ([core]), the menu's, and the text on the display ([screen]: what
    was printed since the last [clearDisplay], one entry per [print] or
    [println]). *)
Record device : Type := mkDevice {
  core : state;
  menuState : Z;
  menuSelectedItem : Z;
  menuActive : bool;
  selectedFPS : Z;
  selectedPPQN : Z;
  displaySMPTE : bool;
  screen : list string
}.

Definition set_core (v : state) (d : device) : device :=
  mkDevice v (menuState d) (menuSelectedItem d) (menuActive d)
    (selectedFPS d) (selectedPPQN d) (displaySMPTE d) (screen d).

Definition set_menuState (v : Z) (d : device) : device :=
  mkDevice (core d) v (menuSelectedItem d) (menuActive d)
    (selectedFPS d) (selectedPPQN d) (displaySMPTE d) (screen d).

Definition set_menuSelectedItem (v : Z) (d : device) : device :=
  mkDevice (core d) (menuState d) v (menuActive d)
    (selectedFPS d) (selectedPPQN d) (displaySMPTE d) (screen d).

Definition set_menuActive (v : bool) (d : device) : device :=
  mkDevice (core d) (menuState d) (menuSelectedItem d) v
    (selectedFPS d) (selectedPPQN d) (displaySMPTE d) (screen d).

Definition set_selectedFPS (v : Z) (d : device) : device :=
  mkDevice (core d) (menuState d) (menuSelectedItem d) (menuActive d)
    v (selectedPPQN d) (displaySMPTE d) (screen d).

Definition set_selectedPPQN (v : Z) (d : device) : device :=
  mkDevice (core d) (menuState d) (menuSelectedItem d) (menuActive d)
    (selectedFPS d) v (displaySMPTE d) (screen d).

Definition set_displaySMPTE (v : bool) (d : device) : device :=
  mkDevice (core d) (menuState d) (menuSelectedItem d) (menuActive d)
    (selectedFPS d) (selectedPPQN d) v (screen d).

Definition set_screen (v : list string) (d : device) : device :=
  mkDevice (core d) (menuState d) (menuSelectedItem d) (menuActive d)
    (selectedFPS d) (selectedPPQN d) (displaySMPTE d) v.

Definition boot (ocr2a : Z) : device :=
  mkDevice (boot ocr2a) MENU_MAIN 0 false FPS_30 24 true [].

(** [table[i]] on a constant table.  A read past the end is undefined
    behaviour in C: it yields [None]. *)
Definition table_get {A : Type} (i : Z) (table : list A) : option A :=
  nth_error table (Z.to_nat i).

(** [navigateMenu]; [next_pressed] and [previous_pressed] are the values
    of [!(PINC & (1 << NEXT_BUTTON_PIN))] and
    [!(PINC & (1 << PREVIOUS_BUTTON_PIN))]. *)
Definition navigateMenu (next_pressed previous_pressed : bool)
    (d : device) : device :=
  let d :=
    if next_pressed
    then set_menuSelectedItem (u8 ((menuSelectedItem d + 1) mod 4)) d
    else d in
  if previous_pressed
  then set_menuSelectedItem
         (if menuSelectedItem d =? 0 then 3 else u8 (menuSelectedItem d - 1)) d
  else d.

Definition selectMenuItem (d : device) : option device :=
  if menuState d =? MENU_MAIN then
    if menuSelectedItem d =? 0 then
      Some (set_menuSelectedItem 0 (set_menuState MENU_SMPTE_FPS d))
    else if menuSelectedItem d =? 1 then
      Some (set_menuSelectedItem 0 (set_menuState MENU_MIDI_PPQN d))
    else if menuSelectedItem d =? 2 then
      Some (set_menuSelectedItem 0 (set_menuState MENU_DISPLAY_TYPE d))
    else
      Some (set_menuState MENU_MAIN d)
  else if menuState d =? MENU_SMPTE_FPS then
    match table_get (menuSelectedItem d) smpteFpsOptions with
    | Some v => Some (set_menuState MENU_MAIN (set_selectedFPS v d))
    | None => None
    end
  else if menuState d =? MENU_MIDI_PPQN then
    match table_get (menuSelectedItem d) midiPpqnOptions with
    | Some v => Some (set_menuState MENU_MAIN (set_selectedPPQN v d))
    | None => None
    end
  else if menuState d =? MENU_DISPLAY_TYPE then
    Some (set_menuState MENU_MAIN
            (set_displaySMPTE (menuSelectedItem d =? 0) d))
  else Some d.

Definition backMenu (d : device) : device :=
  if negb (menuState d =? MENU_MAIN)
  then set_menuSelectedItem 0 (set_menuState MENU_MAIN d)
  else d.

(** [ISR(TIMER0_COMPA_vect)], with the four buttons of port C as the
    handler reads them. *)
Definition TIMER0_COMPA_vect
    (next_pressed previous_pressed select_pressed back_pressed : bool)
    (d : device) : option device :=
  if menuActive d then
    let d := navigateMenu next_pressed previous_pressed d in
    match (if select_pressed then selectMenuItem d else Some d) with
    | Some d => Some (if back_pressed then backMenu d else d)
    | None => None
    end
  else
    Some (if select_pressed then set_menuActive true d else d).

(** The line printed for entry [i] of a submenu. *)
Definition entry_line (d : device) (i : Z) (label : string) : string :=
  if menuSelectedItem d =? i then ("> " ++ label)%string
  else ("  " ++ label)%string.

Definition displayMenu (d : device) : device :=
  let lines : list string :=
    if menuState d =? MENU_MAIN then
      [ if menuSelectedItem d =? 0 then "> SMPTE FPS"%string
        else "  SMPTE FPS"%string;
        if menuSelectedItem d =? 1 then "> MIDI PPQN"%string
        else "  MIDI PPQN"%string;
        if menuSelectedItem d =? 2 then "> Display Type"%string
        else "  Display Type"%string ]
    else if menuState d =? MENU_SMPTE_FPS then
      map (fun il => entry_line d (fst il) (snd il))
          (combine [0; 1; 2; 3] smpteFpsLabels)
    else if menuState d =? MENU_MIDI_PPQN then
      map (fun il => entry_line d (fst il) (snd il))
          (combine [0; 1; 2; 3; 4] midiPpqnLabels)
    else if menuState d =? MENU_DISPLAY_TYPE then
      [ if menuSelectedItem d =? 0 then "> Display SMPTE"%string
        else "  Display SMPTE"%string;
        if menuSelectedItem d =? 1 then "> Display MIDI"%string
        else "  Display MIDI"%string ]
    else [] in
  set_screen ("Menu:"%string :: lines) d.

(** Decimal digits of a number below 1000, as [%d] prints an
    [unsigned char]. *)
Definition digit (n : Z) : ascii := ascii_of_nat (48 + Z.to_nat n).

Definition decimal (n : Z) : string :=
  if n <? 10 then String (digit n) EmptyString
  else if n <? 100 then
    String (digit (n / 10)) (String (digit (n mod 10)) EmptyString)
  else
    String (digit (n / 100))
      (String (digit (n / 10 mod 10)) (String (digit (n mod 10)) EmptyString)).

(** [%02d]: at least two digits, padded with a zero. *)
Definition format_02d (n : Z) : string :=
  if n <? 10 then String "0"%char (decimal n) else decimal n.

(** [displayTimecode].  [sprintf] writes the text and its terminator
    into [char buffer[20]]; writing past the buffer is undefined
    behaviour: it yields [None]. *)
Definition displayTimecode (d : device) : option device :=
  if displaySMPTE d then
    let text :=
      ("SMPTE: " ++ format_02d (hourCount (core d)) ++ ":" ++
       format_02d (minuteCount (core d)) ++ ":" ++
       format_02d (secondCount (core d)) ++ ":" ++
       format_02d (frameCount (core d)))%string in
    if (Z.of_nat (String.length text) + 1 <=? 20)
    then Some (set_screen [text] d)
    else None
  else Some (set_screen ["MIDI Timecode"%string] d).

(** One pass of this revision's [loop]. *)
Definition loop (start_pressed stop_pressed : bool) (d : device)
    : option device :=
  if negb (menuActive d) then
    displayTimecode (set_core (loop start_pressed stop_pressed (core d)) d)
  else Some (displayMenu d).

(** This revision's fast tick: the frame rate is [selectedFPS]. *)
Definition TIMER1_COMPA_vect (d : device) : device :=
  set_core (TIMER1_COMPA_vect (selectedFPS d) (core d)) d.

Inductive reachable : device -> Prop :=
| reach_boot : forall o, byte o -> reachable (boot o)
| reach_menu_tick : forall n p s b d d',
    reachable d -> TIMER0_COMPA_vect n p s b d = Some d' -> reachable d'
| reach_loop : forall a b d d',
    reachable d -> loop a b d = Some d' -> reachable d'
| reach_tick : forall d, reachable d -> reachable (TIMER1_COMPA_vect d).

(** A line of the menu carries the selection mark. *)
Definition marked (line : string) : bool := prefix ">" line.

(** How many entries the menu in state [m] lists. *)
Definition entries (m : Z) : Z :=
  if m =? MENU_MAIN then 3
  else if m =? MENU_SMPTE_FPS then 4
  else if m =? MENU_MIDI_PPQN then 5
  else if m =? MENU_DISPLAY_TYPE then 2
  else 0.

(** [later d d']: the device gets from [d] to [d'] by some sequence of
    menu interrupts, passes of [loop] and fast ticks. *)
Inductive later (d : device) : device -> Prop :=
| later_now : later d d
| later_menu_tick : forall n p s b d1 d2,
    later d d1 -> TIMER0_COMPA_vect n p s b d1 = Some d2 -> later d d2
| later_loop : forall a b d1 d2,
    later d d1 -> loop a b d1 = Some d2 -> later d d2
| later_tick : forall d1, later d d1 -> later d (TIMER1_COMPA_vect d1).

(** The ranges the menu's variables stay in. *)
Definition in_range (d : device) : Prop :=
  0 <= menuSelectedItem d <= 3 /\
  0 <= menuState d <= 3 /\
  In (selectedFPS d) [24; 25; 30; 29] /\
  In (selectedPPQN d) [24; 48; 96; 120] /\
  valid 30 (core d).

End Menu.

(** * Properties *)

(** ** Small facts about the field updates *)

Lemma u8_small (x : Z) : byte x -> u8 x = x.
Proof. unfold byte, u8. intros H. apply Z.mod_small. exact H. Qed.

(** [(x >> k) & 1] is bit [k] of [x]. *)
Lemma shiftr_land_1 (x k : Z) :
  0 <= k -> Z.land (Z.shiftr x k) 1 = Z.b2z (Z.testbit x k).
Proof.
  intros Hk.
  change 1 with (Z.ones 1) at 1.
  rewrite Z.land_ones by lia.
  change (2 ^ 1) with 2.
  rewrite <- Z.bit0_mod.
  rewrite Z.shiftr_spec by lia.
  reflexivity.
Qed.

Lemma b2z_byte (b : bool) : byte (Z.b2z b).
Proof. destruct b; unfold byte; simpl; lia. Qed.

(** ** The receive handler's guard *)

(** [midiByte & 0xF0] has bit 0 clear and [0xF1] has it set: the test
    that opens the handler's body fails on every byte. *)
Lemma quarter_frame_guard (b : Z) :
  (Z.land b 0xF0 =? MIDI_TIME_CODE_QUARTER_FRAME) = false.
Proof.
  apply Z.eqb_neq. intros H.
  apply (f_equal (fun x => Z.testbit x 0)) in H.
  rewrite Z.land_spec in H.
  unfold MIDI_TIME_CODE_QUARTER_FRAME in H. simpl in H.
  rewrite andb_false_r in H. discriminate H.
Qed.

Lemma USART_RX_vect_skips (b : Z) (s : state) : USART_RX_vect b s = Some s.
Proof. unfold USART_RX_vect. rewrite quarter_frame_guard. reflexivity. Qed.

Lemma receive_skips (bs : list Z) (s : state) : receive bs s = Some s.
Proof.
  induction bs as [|b bs IH]; simpl.
  - reflexivity.
  - rewrite USART_RX_vect_skips. exact IH.
Qed.

(** C3: for every byte value [b] in 0..255, one invocation of the receive
    handler on [b] returns the state it was given: the guard
    [(b & 0xF0) == 0xF1] is false, so no assembly slot is written, no
    reassembly happens and [clockStarted] is not set. *)
Theorem USART_RX_vect_never_fires (b : Z) (s : state) :
  byte b ->
  (Z.land b 0xF0 =? MIDI_TIME_CODE_QUARTER_FRAME) = false /\
  USART_RX_vect b s = Some s.
Proof.
  intros _. split.
  - apply quarter_frame_guard.
  - apply USART_RX_vect_skips.
Qed.

Lemma USART_RX_vect_never_fires_witness :
  byte 0xF7 /\
  (Z.land 0xF7 0xF0 =? MIDI_TIME_CODE_QUARTER_FRAME) = false /\
  USART_RX_vect 0xF7 (boot 0) = Some (boot 0).
Proof.
  split.
  - unfold byte. lia.
  - apply (USART_RX_vect_never_fires 0xF7 (boot 0)). unfold byte. lia.
Defined.

(** ** The fast tick while paused *)

Lemma TIMER1_paused (FPS : Z) (s : state) :
  clockPaused s = true -> TIMER1_COMPA_vect FPS s = s.
Proof. intros H. unfold TIMER1_COMPA_vect. rewrite H. reflexivity. Qed.

Lemma TIMER1_paused_iter (FPS : Z) (n : nat) (s : state) :
  clockPaused s = true -> Nat.iter n (TIMER1_COMPA_vect FPS) s = s.
Proof.
  intros H. induction n as [|n IH]; simpl.
  - reflexivity.
  - rewrite IH. apply TIMER1_paused. exact H.
Qed.

(** C9: while [clockPaused] is true, any number of fast ticks leaves the
    state as it was; in particular the four counter fields and
    [bitCount] do not change. *)
Theorem paused_ticks_freeze (FPS : Z) (n : nat) (s : state) :
  clockPaused s = true ->
  Nat.iter n (TIMER1_COMPA_vect FPS) s = s /\
  timecode (Nat.iter n (TIMER1_COMPA_vect FPS) s) = timecode s /\
  bitCount (Nat.iter n (TIMER1_COMPA_vect FPS) s) = bitCount s.
Proof.
  intros H. rewrite (TIMER1_paused_iter FPS n s H). repeat split.
Qed.

Lemma paused_ticks_freeze_witness :
  let s := loop false true
             (TIMER1_COMPA_vect 30 (loop true false (boot 0))) in
  clockPaused s = true /\
  Nat.iter 5 (TIMER1_COMPA_vect 30) s = s /\
  timecode (Nat.iter 5 (TIMER1_COMPA_vect 30) s) = timecode s /\
  bitCount (Nat.iter 5 (TIMER1_COMPA_vect 30) s) = bitCount s.
Proof.
  intros s. split; [reflexivity|].
  apply (paused_ticks_freeze 30 5 s). reflexivity.
Defined.

(** ** Which bit a tick emits *)

Lemma timeUpdate_frame (FPS : Z) (s : state) :
  bitCount (timeUpdate FPS s) = bitCount s /\
  currentBit (timeUpdate FPS s) = currentBit s /\
  lastLevel (timeUpdate FPS s) = lastLevel s /\
  clockStarted (timeUpdate FPS s) = clockStarted s /\
  clockPaused (timeUpdate FPS s) = clockPaused s /\
  transportState (timeUpdate FPS s) = transportState s /\
  mtcQuarterFrame (timeUpdate FPS s) = mtcQuarterFrame s /\
  OCR2A (timeUpdate FPS s) = OCR2A s /\
  UDR0_sent (timeUpdate FPS s) = UDR0_sent s.
Proof.
  unfold timeUpdate; cbn.
  destruct (frameCount s <? FPS - 1); cbn; [repeat split|].
  destruct (secondCount s <? 59); cbn; [repeat split|].
  destruct (minuteCount s <? 59); cbn; [repeat split|].
  destruct (hourCount s <? 23); cbn; repeat split.
Qed.

Lemma selected_bit_cases (s : state) (c : Z) :
  (c < 32 -> selected_bit s c = Z.testbit (frameCount s) (c mod 4)) /\
  (32 <= c < 40 -> selected_bit s c = Z.testbit (secondCount s) (c - 32)) /\
  (40 <= c < 48 -> selected_bit s c = Z.testbit (minuteCount s) (c - 40)) /\
  (48 <= c -> selected_bit s c = Z.testbit (hourCount s) (c - 48)).
Proof.
  unfold selected_bit.
  destruct (Z.ltb_spec c 32); [repeat split; intros; (reflexivity || lia)|].
  destruct (Z.ltb_spec c 40); [repeat split; intros; (reflexivity || lia)|].
  destruct (Z.ltb_spec c 48); repeat split; intros; (reflexivity || lia).
Qed.

Lemma setLTCLevel_bit (s : state) :
  0 <= bitCount s < 80 ->
  currentBit (setLTCLevel s) = Z.b2z (selected_bit s (bitCount s)) /\
  OCR2A (setLTCLevel s) = level_of (selected_bit s (bitCount s)) /\
  bitCount (setLTCLevel s) = bitCount s + 1 /\
  timecode (setLTCLevel s) = timecode s.
Proof.
  intros Hc.
  assert (Hm : 0 <= bitCount s mod 4) by (apply Z.mod_pos_bound; lia).
  unfold setLTCLevel, selected_bit.
  replace (bitCount s <? 80) with true by (symmetry; apply Z.ltb_lt; lia).
  set (bit := if bitCount s <? 32 then _ else _).
  set (sel := if bitCount s <? 32 then Z.testbit _ _ else _).
  assert (Hbit : bit = Z.b2z sel).
  { subst bit sel.
    destruct (Z.ltb_spec (bitCount s) 32); [apply shiftr_land_1; lia|].
    destruct (Z.ltb_spec (bitCount s) 40); [apply shiftr_land_1; lia|].
    destruct (Z.ltb_spec (bitCount s) 48); apply shiftr_land_1; lia. }
  rewrite Hbit, (u8_small _ (b2z_byte sel)).
  clearbody sel. clear bit Hbit.
  destruct sel; cbn; rewrite u8_small by (unfold byte; lia);
    repeat split.
Qed.

(** C6: on a fast tick with the cursor at [c] in [0,80), the emitted bit
    is bit [c mod 4] of [frameCount] for [c] in [0,32), bit [c-32] of
    [secondCount] for [c] in [32,40), bit [c-40] of [minuteCount] for
    [c] in [40,48) and bit [c-48] of [hourCount] for [c] in [48,80); a 1
    puts [highLevel] on the output and a 0 puts [lowLevel], one level
    for the tick. *)
Theorem tick_emits_selected_bit (FPS : Z) (s : state) (c : Z) :
  bitCount s = c -> 0 <= c < 80 ->
  clockStarted s = true -> clockPaused s = false ->
  (c < 32 ->
     emits (setLTCLevel s) (Z.testbit (frameCount s) (c mod 4)) /\
     emits (TIMER1_COMPA_vect FPS s) (Z.testbit (frameCount s) (c mod 4))) /\
  (32 <= c < 40 ->
     emits (setLTCLevel s) (Z.testbit (secondCount s) (c - 32)) /\
     emits (TIMER1_COMPA_vect FPS s) (Z.testbit (secondCount s) (c - 32))) /\
  (40 <= c < 48 ->
     emits (setLTCLevel s) (Z.testbit (minuteCount s) (c - 40)) /\
     emits (TIMER1_COMPA_vect FPS s) (Z.testbit (minuteCount s) (c - 40))) /\
  (48 <= c ->
     emits (setLTCLevel s) (Z.testbit (hourCount s) (c - 48)) /\
     emits (TIMER1_COMPA_vect FPS s) (Z.testbit (hourCount s) (c - 48))).
Proof.
  intros Hc Hr Hs Hp. subst c.
  destruct (setLTCLevel_bit s Hr) as (Hb & Ho & _ & _).
  assert (Ht : currentBit (TIMER1_COMPA_vect FPS s) = currentBit (setLTCLevel s)
               /\ OCR2A (TIMER1_COMPA_vect FPS s) = OCR2A (setLTCLevel s)).
  { unfold TIMER1_COMPA_vect. rewrite Hs, Hp. cbn [negb andb].
    destruct (bitCount (setLTCLevel s) =? 80); [|split; reflexivity].
    destruct (timeUpdate_frame FPS (setLTCLevel s))
      as (_ & H1 & _ & _ & _ & _ & _ & H2 & _).
    split; assumption. }
  destruct Ht as [Ht1 Ht2].
  assert (E : emits (setLTCLevel s) (selected_bit s (bitCount s)) /\
              emits (TIMER1_COMPA_vect FPS s) (selected_bit s (bitCount s))).
  { unfold emits, level_of in *. rewrite Ht1, Ht2. repeat split; assumption. }
  destruct (selected_bit_cases s (bitCount s)) as (C1 & C2 & C3 & C4).
  split; [|split; [|split]]; intros H.
  - rewrite <- (C1 H). exact E.
  - rewrite <- (C2 H). exact E.
  - rewrite <- (C3 H). exact E.
  - rewrite <- (C4 H). exact E.
Qed.

Lemma tick_emits_selected_bit_witness :
  let s := set_bitCount 33 (set_secondCount 2
             (set_clockStarted true (boot 0))) in
  Z.testbit (secondCount s) (33 - 32) = true /\
  emits (TIMER1_COMPA_vect 30 s) (Z.testbit (secondCount s) (33 - 32)) /\
  OCR2A (TIMER1_COMPA_vect 30 s) = highLevel.
Proof.
  intros s.
  destruct (tick_emits_selected_bit 30 s 33) as (_ & H2 & _ & _);
    [reflexivity | lia | reflexivity | reflexivity |].
  destruct H2 as (_ & H2); [lia|].
  split; [reflexivity|]. split; [exact H2|]. apply H2.
Defined.

(** ** The cursor cycle *)

Ltac ltb_false := symmetry; apply Z.ltb_ge; lia.

Lemma TIMER1_running (FPS : Z) (s : state) :
  running s ->
  TIMER1_COMPA_vect FPS s =
    if bitCount (setLTCLevel s) =? 80
    then timeUpdate FPS (setLTCLevel s) else setLTCLevel s.
Proof.
  intros [Hs Hp]. unfold TIMER1_COMPA_vect. rewrite Hs, Hp. reflexivity.
Qed.

Lemma setLTCLevel_flags (s : state) :
  clockStarted (setLTCLevel s) = clockStarted s /\
  clockPaused (setLTCLevel s) = clockPaused s /\
  transportState (setLTCLevel s) = transportState s.
Proof.
  unfold setLTCLevel. destruct (bitCount s <? 80); cbn.
  - destruct (u8 _ =? 0); cbn; repeat split.
  - repeat split.
Qed.

Lemma setLTCLevel_wrap (s : state) :
  80 <= bitCount s ->
  setLTCLevel s = set_OCR2A groundLevel (set_bitCount 0 s).
Proof.
  intros H. unfold setLTCLevel.
  replace (bitCount s <? 80) with false by ltb_false. reflexivity.
Qed.

Lemma setLTCLevel_running (s : state) : running s -> running (setLTCLevel s).
Proof.
  intros [Hs Hp]. destruct (setLTCLevel_flags s) as (E1 & E2 & _).
  split; congruence.
Qed.

Lemma timeUpdate_running (FPS : Z) (s : state) :
  running s -> running (timeUpdate FPS s).
Proof.
  intros [Hs Hp].
  destruct (timeUpdate_frame FPS s) as (_ & _ & _ & E1 & E2 & _).
  split; congruence.
Qed.

(** [timeUpdate] reads and writes the four counters only. *)
Lemma timeUpdate_timecode (FPS : Z) (s1 s2 : state) :
  timecode s1 = timecode s2 ->
  timecode (timeUpdate FPS s1) = timecode (timeUpdate FPS s2).
Proof.
  unfold timecode. intros H. injection H as Hh Hm Hs Hf.
  unfold timeUpdate; cbn. rewrite Hh, Hm, Hs, Hf.
  destruct (frameCount s2 <? FPS - 1); cbn; [congruence|].
  destruct (secondCount s2 <? 59); cbn; [congruence|].
  destruct (minuteCount s2 <? 59); cbn; [congruence|].
  destruct (hourCount s2 <? 23); cbn; congruence.
Qed.

(** Every call of [timeUpdate] changes the counter. *)
Lemma timeUpdate_mutates (FPS : Z) (s : state) :
  bytes_ok s -> timecode (timeUpdate FPS s) <> timecode s.
Proof.
  intros (Hh & Hm & Hs & Hf & _). unfold byte in *.
  unfold timeUpdate, timecode, u8; cbn.
  destruct (Z.ltb_spec (frameCount s) (FPS - 1)); cbn;
    [intros E; injection E; intros;
     Z.to_euclidean_division_equations; lia|].
  destruct (Z.ltb_spec (secondCount s) 59); cbn;
    [intros E; injection E; intros;
     Z.to_euclidean_division_equations; lia|].
  destruct (Z.ltb_spec (minuteCount s) 59); cbn;
    [intros E; injection E; intros;
     Z.to_euclidean_division_equations; lia|].
  destruct (Z.ltb_spec (hourCount s) 23); cbn;
    intros E; injection E; intros;
    Z.to_euclidean_division_equations; lia.
Qed.

(** One tick with the cursor below 79: a bit is emitted, the cursor
    advances, the counter is not touched. *)
Lemma tick_below_79 (FPS : Z) (s : state) :
  running s -> 0 <= bitCount s < 79 ->
  TIMER1_COMPA_vect FPS s = setLTCLevel s /\
  bitCount (TIMER1_COMPA_vect FPS s) = bitCount s + 1 /\
  timecode (TIMER1_COMPA_vect FPS s) = timecode s.
Proof.
  intros Hr Hc. rewrite (TIMER1_running FPS s Hr).
  destruct (setLTCLevel_bit s) as (_ & _ & Hb & Ht); [lia|].
  rewrite Hb.
  replace (bitCount s + 1 =? 80) with false
    by (symmetry; apply Z.eqb_neq; lia).
  rewrite Hb. repeat split. exact Ht.
Qed.

(** The tick that emits the eightieth bit: the cursor reaches 80 and
    [timeUpdate] is called. *)
Lemma tick_at_79 (FPS : Z) (s : state) :
  running s -> bitCount s = 79 ->
  TIMER1_COMPA_vect FPS s = timeUpdate FPS (setLTCLevel s) /\
  bitCount (TIMER1_COMPA_vect FPS s) = 80 /\
  timecode (TIMER1_COMPA_vect FPS s) = timecode (timeUpdate FPS s).
Proof.
  intros Hr Hc. rewrite (TIMER1_running FPS s Hr).
  destruct (setLTCLevel_bit s) as (_ & _ & Hb & Ht); [lia|].
  rewrite Hb, Hc. cbn [Z.add Pos.add Pos.succ Z.eqb Pos.eqb].
  destruct (timeUpdate_frame FPS (setLTCLevel s)) as (E & _).
  repeat split.
  - rewrite E, Hb, Hc. reflexivity.
  - apply timeUpdate_timecode. exact Ht.
Qed.

(** The tick after that: the cursor wraps, the output goes to ground,
    the counter is not touched. *)
Lemma tick_at_80 (FPS : Z) (s : state) :
  running s -> 80 <= bitCount s ->
  TIMER1_COMPA_vect FPS s = set_OCR2A groundLevel (set_bitCount 0 s) /\
  bitCount (TIMER1_COMPA_vect FPS s) = 0 /\
  OCR2A (TIMER1_COMPA_vect FPS s) = groundLevel /\
  timecode (TIMER1_COMPA_vect FPS s) = timecode s.
Proof.
  intros Hr Hc. rewrite (TIMER1_running FPS s Hr).
  rewrite (setLTCLevel_wrap s Hc). cbn. repeat split.
Qed.

Lemma TIMER1_keeps_running (FPS : Z) (s : state) :
  running s -> running (TIMER1_COMPA_vect FPS s).
Proof.
  intros Hr. rewrite (TIMER1_running FPS s Hr).
  destruct (bitCount (setLTCLevel s) =? 80).
  - apply timeUpdate_running, setLTCLevel_running, Hr.
  - apply setLTCLevel_running, Hr.
Qed.

Lemma ticks_before_79 (FPS : Z) (k : nat) (s : state) :
  running s -> 0 <= bitCount s -> bitCount s + Z.of_nat k <= 79 ->
  running (Nat.iter k (TIMER1_COMPA_vect FPS) s) /\
  bitCount (Nat.iter k (TIMER1_COMPA_vect FPS) s) = bitCount s + Z.of_nat k /\
  timecode (Nat.iter k (TIMER1_COMPA_vect FPS) s) = timecode s.
Proof.
  intros Hr H0. induction k as [|k IH]; intros Hk.
  - cbn [Nat.iter nat_rect]. repeat split; try apply Hr. cbn. lia.
  - destruct IH as (IHr & IHb & IHt); [lia|].
    change (Nat.iter (S k) (TIMER1_COMPA_vect FPS) s)
      with (TIMER1_COMPA_vect FPS (Nat.iter k (TIMER1_COMPA_vect FPS) s)).
    destruct (tick_below_79 FPS _ IHr) as (_ & Hb & Ht); [lia|].
    split; [apply TIMER1_keeps_running, IHr|].
    split; [rewrite Hb, IHb; lia | rewrite Ht; exact IHt].
Qed.

(** The level a tick of the running clock leaves on the output. *)
Lemma tick_level (FPS : Z) (s : state) :
  running s ->
  (0 <= bitCount s < 80 ->
     OCR2A (TIMER1_COMPA_vect FPS s) = lowLevel \/
     OCR2A (TIMER1_COMPA_vect FPS s) = highLevel) /\
  (80 <= bitCount s -> OCR2A (TIMER1_COMPA_vect FPS s) = groundLevel).
Proof.
  intros Hr. split; intros Hc.
  - rewrite (TIMER1_running FPS s Hr).
    destruct (setLTCLevel_bit s Hc) as (_ & Ho & _ & _).
    destruct (timeUpdate_frame FPS (setLTCLevel s))
      as (_ & _ & _ & _ & _ & _ & _ & E & _).
    destruct (bitCount (setLTCLevel s) =? 80); [rewrite E|];
      rewrite Ho; unfold level_of;
      destruct (selected_bit s (bitCount s)); auto.
  - apply (tick_at_80 FPS s Hr Hc).
Qed.

(** The cursor never leaves 0..80 while the clock runs. *)
Lemma ticks_cursor_range (FPS : Z) (n : nat) (s : state) :
  running s -> 0 <= bitCount s <= 80 ->
  running (Nat.iter n (TIMER1_COMPA_vect FPS) s) /\
  0 <= bitCount (Nat.iter n (TIMER1_COMPA_vect FPS) s) <= 80.
Proof.
  intros Hr Hc. induction n as [|n (IHr & IHc)].
  - split; [exact Hr | exact Hc].
  - rewrite Nat.iter_succ.
    split; [apply TIMER1_keeps_running; exact IHr|].
    set (sn := Nat.iter n (TIMER1_COMPA_vect FPS) s) in *.
    assert (Hcases : bitCount sn < 79 \/ bitCount sn = 79 \/ bitCount sn = 80)
      by lia.
    destruct Hcases as [H | [H | H]].
    + destruct (tick_below_79 FPS sn IHr) as (_ & E & _); [lia|].
      rewrite E. lia.
    + destruct (tick_at_79 FPS sn IHr H) as (_ & E & _). rewrite E. lia.
    + destruct (tick_at_80 FPS sn IHr) as (_ & E & _); [lia|].
      rewrite E. lia.
Qed.

(** C5, as the code has it: while the clock is started and not paused
    the cursor runs through 0..80 and never leaves that range.
    [timeUpdate] is called on exactly the tick that takes the cursor
    from 79 to 80 (the tick that emits the eightieth bit) and on no
    other tick; the cursor wraps to 0 on the following tick, which
    writes the ground level to [OCR2A] and leaves the counter alone,
    whereas every tick with the cursor below 80 writes the low or the
    high level.  A cycle is therefore 81 ticks long, ends on the ground
    level and mutates the counter exactly once. *)
Theorem cursor_cycle (FPS : Z) (s : state) :
  running s -> bytes_ok s -> bitCount s <= 80 ->
  (bitCount (TIMER1_COMPA_vect FPS s) = 0 <-> bitCount s = 80) /\
  (bitCount s = 79 ->
     TIMER1_COMPA_vect FPS s = timeUpdate FPS (setLTCLevel s) /\
     bitCount (TIMER1_COMPA_vect FPS s) = 80) /\
  (bitCount s <> 79 -> TIMER1_COMPA_vect FPS s = setLTCLevel s) /\
  (timecode (TIMER1_COMPA_vect FPS s) <> timecode s <-> bitCount s = 79) /\
  (bitCount s = 0 ->
     (forall k, (k <= 79)%nat ->
        timecode (Nat.iter k (TIMER1_COMPA_vect FPS) s) = timecode s) /\
     timecode (Nat.iter 80 (TIMER1_COMPA_vect FPS) s)
       = timecode (timeUpdate FPS s) /\
     bitCount (Nat.iter 80 (TIMER1_COMPA_vect FPS) s) = 80 /\
     timecode (Nat.iter 81 (TIMER1_COMPA_vect FPS) s)
       = timecode (timeUpdate FPS s) /\
     bitCount (Nat.iter 81 (TIMER1_COMPA_vect FPS) s) = 0 /\
     OCR2A (Nat.iter 81 (TIMER1_COMPA_vect FPS) s) = groundLevel) /\
  (forall n, 0 <= bitCount (Nat.iter n (TIMER1_COMPA_vect FPS) s) <= 80) /\
  (bitCount s = 80 ->
     bitCount (TIMER1_COMPA_vect FPS s) = 0 /\
     OCR2A (TIMER1_COMPA_vect FPS s) = groundLevel /\
     timecode (TIMER1_COMPA_vect FPS s) = timecode s) /\
  (bitCount s < 80 ->
     OCR2A (TIMER1_COMPA_vect FPS s) = lowLevel \/
     OCR2A (TIMER1_COMPA_vect FPS s) = highLevel).
Proof.
  intros Hr Hb Hle.
  assert (H0 : 0 <= bitCount s) by (destruct Hb as (_ & _ & _ & _ & H); apply H).
  assert (Hcases : bitCount s < 79 \/ bitCount s = 79 \/ bitCount s = 80) by lia.
  split; [|split; [|split; [|split; [|split; [|split; [|split]]]]]].
  - destruct Hcases as [H | [H | H]].
    + destruct (tick_below_79 FPS s Hr) as (_ & E & _); [lia|].
      rewrite E. lia.
    + destruct (tick_at_79 FPS s Hr H) as (_ & E & _). rewrite E. lia.
    + destruct (tick_at_80 FPS s Hr) as (_ & E & _); [lia|].
      rewrite E. lia.
  - intros H. destruct (tick_at_79 FPS s Hr H) as (E1 & E2 & _).
    split; assumption.
  - intros Hn. destruct Hcases as [H | [H | H]]; [|contradiction|].
    + apply (tick_below_79 FPS s Hr). lia.
    + destruct (tick_at_80 FPS s Hr) as (E & _); [lia|].
      rewrite E. symmetry. apply setLTCLevel_wrap. lia.
  - split.
    + intros Hne. destruct Hcases as [H | [H | H]]; [|exact H|].
      * destruct (tick_below_79 FPS s Hr) as (_ & _ & E); [lia|].
        contradiction.
      * destruct (tick_at_80 FPS s Hr) as (_ & _ & _ & E); [lia|].
        contradiction.
    + intros H. destruct (tick_at_79 FPS s Hr H) as (_ & _ & E).
      rewrite E. apply timeUpdate_mutates. exact Hb.
  - intros Hz.
    destruct (ticks_before_79 FPS 79 s Hr H0) as (R79 & B79 & T79);
      [rewrite Hz; lia|].
    rewrite Hz in B79. change (0 + Z.of_nat 79) with 79 in B79.
    rewrite (Nat.iter_succ 80 state (TIMER1_COMPA_vect FPS) s).
    rewrite (Nat.iter_succ 79 state (TIMER1_COMPA_vect FPS) s).
    set (s79 := Nat.iter 79 (TIMER1_COMPA_vect FPS) s) in *.
    destruct (tick_at_79 FPS s79 R79 B79) as (_ & B80 & T80).
    assert (R80 := TIMER1_keeps_running FPS s79 R79).
    destruct (tick_at_80 FPS _ R80) as (_ & B81 & O81 & T81); [lia|].
    assert (E : timecode (timeUpdate FPS s79) = timecode (timeUpdate FPS s))
      by (apply timeUpdate_timecode; exact T79).
    repeat split.
    + intros k Hk.
      apply (ticks_before_79 FPS k s Hr H0). rewrite Hz. lia.
    + rewrite T80. exact E.
    + exact B80.
    + rewrite T81, T80. exact E.
    + exact B81.
    + exact O81.
  - intros n. apply (ticks_cursor_range FPS n s Hr). lia.
  - intros H. destruct (tick_at_80 FPS s Hr) as (_ & B & O & T); [lia|].
    repeat split; assumption.
  - intros H. apply (tick_level FPS s Hr). lia.
Qed.

Lemma cursor_cycle_witness :
  let s := set_clockStarted true (boot 0) in
  timecode (Nat.iter 80 (TIMER1_COMPA_vect 30) s) = timecode (timeUpdate 30 s) /\
  bitCount (Nat.iter 80 (TIMER1_COMPA_vect 30) s) = 80 /\
  timecode (Nat.iter 81 (TIMER1_COMPA_vect 30) s) = timecode (timeUpdate 30 s) /\
  bitCount (Nat.iter 81 (TIMER1_COMPA_vect 30) s) = 0 /\
  OCR2A (Nat.iter 81 (TIMER1_COMPA_vect 30) s) = groundLevel /\
  0 <= bitCount (Nat.iter 200 (TIMER1_COMPA_vect 30) s) <= 80.
Proof.
  intros s.
  destruct (cursor_cycle 30 s) as (_ & _ & _ & _ & H & R & _).
  - split; reflexivity.
  - unfold bytes_ok, byte; cbn; lia.
  - cbn; lia.
  - destruct (H eq_refl) as (_ & H1 & H2 & H3 & H4 & H5).
    repeat (split; [assumption|]). apply (R 200%nat).
Defined.

(** C5 as stated fails.  From a started clock with the cursor at 79, one
    tick takes the cursor to 80, not to 0, and already increments the
    counter; the next tick wraps the cursor and does not increment.
    Starting from cursor 0, 80 ticks leave the cursor at 80, and 160
    ticks have incremented the counter once, not twice. *)
Lemma cursor_cycle_counterexample :
  let tick := TIMER1_COMPA_vect 30 in
  let s79 := set_bitCount 79 (set_clockStarted true (boot 0)) in
  let s0 := set_clockStarted true (boot 0) in
  bitCount (tick s79) = 80 /\
  timecode s79 = (0, 0, 0, 0) /\
  timecode (tick s79) = (0, 0, 0, 1) /\
  bitCount (tick (tick s79)) = 0 /\
  timecode (tick (tick s79)) = timecode (tick s79) /\
  bitCount (Nat.iter 80 tick s0) = 80 /\
  timecode (Nat.iter 160 tick s0) = (0, 0, 0, 1).
Proof. vm_compute. repeat split. Qed.

(** ** What one call of the transmitter writes *)

Lemma sendMIDIByte_again (b : Z) (l : list Z) (s : state) :
  sendMIDIByte b (set_UDR0_sent l s) = set_UDR0_sent (l ++ [u8 b]) s.
Proof. destruct s. reflexivity. Qed.

Lemma sendMTCQuarterFrame_sends (s : state) :
  sendMTCQuarterFrame s =
    set_UDR0_sent (UDR0_sent s ++ quarter_frame_bytes s) s.
Proof.
  unfold sendMTCQuarterFrame, quarter_frame_bytes. cbv zeta.
  change (sendMIDIByte (Z.lor MIDI_TIME_CODE_QUARTER_FRAME 0) s)
    with (set_UDR0_sent
            (UDR0_sent s ++ [u8 (Z.lor MIDI_TIME_CODE_QUARTER_FRAME 0)]) s).
  repeat rewrite sendMIDIByte_again.
  repeat rewrite <- app_assoc. reflexivity.
Qed.

(** ** The transport controller *)

(** Case analysis on the transport state [t] and the flag tests of a
    pass. *)
Ltac loop_cases t :=
  cbn -[Z.eqb];
  destruct (Z.eq_dec t 0) as [->|?];
    [|destruct (Z.eq_dec t 1) as [->|?];
      [|destruct (Z.eq_dec t 2) as [->|?]]];
  repeat match goal with
         | H : t <> ?k |- context [t =? ?k] =>
             rewrite (proj2 (Z.eqb_neq t k) H); cbn -[Z.eqb]
         end;
  cbn;
  repeat match goal with
         | |- context [if negb ?c then _ else _] => destruct c; cbn
         end.

(** The transport state after one pass of [loop], as a function of the
    two buttons. *)
Lemma loop_transportState (a b : bool) (s : state) :
  transportState (loop a b s) =
    let t := transportState s in
    let t1 := if a then
                if (t =? TRANSPORT_STOPPED) || (t =? TRANSPORT_PAUSED)
                then TRANSPORT_RUNNING else t
              else t in
    if b then
      if t1 =? TRANSPORT_RUNNING then TRANSPORT_PAUSED else TRANSPORT_STOPPED
    else t1.
Proof.
  unfold loop, TRANSPORT_STOPPED, TRANSPORT_RUNNING, TRANSPORT_PAUSED.
  cbv zeta. repeat rewrite sendMTCQuarterFrame_sends.
  destruct s as [h m sc f bc cb ll cs cp t q fc pq o tx].
  destruct a, b; loop_cases t; reflexivity.
Qed.

(** [loop] never writes the counter, the cursor or the output level. *)
Lemma loop_frame (a b : bool) (s : state) :
  timecode (loop a b s) = timecode s /\
  bitCount (loop a b s) = bitCount s /\
  OCR2A (loop a b s) = OCR2A s.
Proof.
  unfold loop, TRANSPORT_STOPPED, TRANSPORT_RUNNING, TRANSPORT_PAUSED.
  cbv zeta. repeat rewrite sendMTCQuarterFrame_sends.
  destruct s as [h m sc f bc cb ll cs cp t q fc pq o tx].
  destruct a, b; loop_cases t; repeat split.
Qed.

Lemma TIMER1_transportState (FPS : Z) (s : state) :
  transportState (TIMER1_COMPA_vect FPS s) = transportState s.
Proof.
  unfold TIMER1_COMPA_vect.
  destruct (negb (clockPaused s) && clockStarted s); [|reflexivity].
  destruct (setLTCLevel_flags s) as (_ & _ & E).
  destruct (bitCount (setLTCLevel s) =? 80); [|exact E].
  destruct (timeUpdate_frame FPS (setLTCLevel s)) as (_ & _ & _ & _ & _ & E' & _).
  congruence.
Qed.

(** Evaluate one pass of [loop] from a state whose transport state is
    known. *)
Ltac loop_from H :=
  unfold TRANSPORT_STOPPED, TRANSPORT_RUNNING, TRANSPORT_PAUSED in *;
  cbn in H; subst;
  unfold loop; cbv zeta; rewrite ?sendMTCQuarterFrame_sends; cbn;
  rewrite ?sendMTCQuarterFrame_sends; cbn.

Lemma loop_start (s : state) :
  transportState s = TRANSPORT_STOPPED \/ transportState s = TRANSPORT_PAUSED ->
  transportState (loop true false s) = TRANSPORT_RUNNING /\
  clockStarted (loop true false s) = true /\
  clockPaused (loop true false s) = false.
Proof.
  destruct s as [h m sc f bc cb ll cs cp t q fc pq o tx].
  intros [H | H]; loop_from H; repeat split.
Qed.

Lemma loop_pause (s : state) :
  transportState s = TRANSPORT_RUNNING ->
  transportState (loop false true s) = TRANSPORT_PAUSED /\
  clockStarted (loop false true s) = clockStarted s /\
  clockPaused (loop false true s) = true.
Proof.
  destruct s as [h m sc f bc cb ll cs cp t q fc pq o tx].
  intros H; loop_from H; repeat split.
Qed.

Lemma loop_stop (s : state) :
  transportState s <> TRANSPORT_RUNNING ->
  transportState (loop false true s) = TRANSPORT_STOPPED /\
  clockStarted (loop false true s) = false /\
  clockPaused (loop false true s) = false.
Proof.
  destruct s as [h m sc f bc cb ll cs cp t q fc pq o tx].
  unfold loop, TRANSPORT_STOPPED, TRANSPORT_RUNNING, TRANSPORT_PAUSED.
  cbn [transportState]. intros H. cbv zeta. cbn -[Z.eqb].
  rewrite (proj2 (Z.eqb_neq t 1) H). cbn. repeat split.
Qed.

(** C4, as the code has it: start takes Stopped to Running; the
    stop/pause button takes Running to Paused; start takes Paused back
    to Running; the stop/pause button takes Paused to Stopped.  There is
    no single step from Running to Stopped: every pass of [loop] from
    Running ends in Running or Paused, and Stopped is reached from
    Running by the stop/pause button twice, through Paused.  Without
    the start button nothing leaves Stopped: not a pass of [loop], not a
    fast tick, not a received byte. *)
Theorem transport_transitions (FPS : Z) (s : state) :
  (transportState s = TRANSPORT_STOPPED ->
     transportState (loop true false s) = TRANSPORT_RUNNING) /\
  (transportState s = TRANSPORT_RUNNING ->
     transportState (loop false true s) = TRANSPORT_PAUSED) /\
  (transportState s = TRANSPORT_PAUSED ->
     transportState (loop true false s) = TRANSPORT_RUNNING) /\
  (transportState s = TRANSPORT_PAUSED ->
     transportState (loop false true s) = TRANSPORT_STOPPED) /\
  (transportState s = TRANSPORT_RUNNING ->
     (forall a b, transportState (loop a b s) = TRANSPORT_RUNNING \/
                  transportState (loop a b s) = TRANSPORT_PAUSED) /\
     transportState (loop false true (loop false true s))
       = TRANSPORT_STOPPED) /\
  (transportState s = TRANSPORT_STOPPED ->
     (forall b, transportState (loop false b s) = TRANSPORT_STOPPED) /\
     transportState (TIMER1_COMPA_vect FPS s) = TRANSPORT_STOPPED /\
     (forall b s', USART_RX_vect b s = Some s' ->
        transportState s' = TRANSPORT_STOPPED)).
Proof.
  split; [intros H; apply loop_start; left; exact H|].
  split; [intros H; apply loop_pause; exact H|].
  split; [intros H; apply loop_start; right; exact H|].
  split; [intros H; apply loop_stop; rewrite H; discriminate|].
  split.
  - intros H. split.
    + intros a b. rewrite loop_transportState, H.
      destruct a, b; cbn; auto.
    + destruct (loop_pause s H) as (E & _).
      apply loop_stop. rewrite E. discriminate.
  - intros H. split; [|split].
    + intros b. rewrite loop_transportState, H. destruct b; reflexivity.
    + rewrite TIMER1_transportState. exact H.
    + intros b s' E. rewrite USART_RX_vect_skips in E.
      injection E as <-. exact H.
Qed.

Lemma transport_transitions_witness :
  transportState (loop true false (boot 0)) = TRANSPORT_RUNNING /\
  transportState (loop false true (loop true false (boot 0)))
    = TRANSPORT_PAUSED /\
  transportState
    (loop false true (loop false true (loop true false (boot 0))))
    = TRANSPORT_STOPPED.
Proof.
  destruct (transport_transitions 30 (boot 0)) as (H1 & _).
  destruct (transport_transitions 30 (loop true false (boot 0)))
    as (_ & H2 & _ & _ & H5 & _).
  split; [apply H1; reflexivity|].
  split; [apply H2; reflexivity|].
  apply H5. reflexivity.
Defined.

(** C4 as stated fails on "Running --stop--> Stopped": from Running the
    stop/pause button gives Paused, and no combination of the two
    buttons takes Running to Stopped in one pass. *)
Lemma transport_transitions_counterexample :
  let s := loop true false (boot 0) in
  transportState s = TRANSPORT_RUNNING /\
  transportState (loop false true s) = TRANSPORT_PAUSED /\
  map (fun ab => transportState (loop (fst ab) (snd ab) s))
      [(false, false); (false, true); (true, false); (true, true)]
    = [TRANSPORT_RUNNING; TRANSPORT_PAUSED;
       TRANSPORT_RUNNING; TRANSPORT_PAUSED].
Proof. vm_compute. repeat split. Qed.

(** ** The output level while paused *)




(** ** The counter as a mixed-radix clock *)

Lemma state_eq (s1 s2 : state) :
  timecode s1 = timecode s2 -> rest s1 = rest s2 -> s1 = s2.
Proof.
  destruct s1, s2. unfold timecode, rest. cbn.
  intros E1 E2. injection E1 as -> -> -> ->.
  injection E2 as -> -> -> -> -> -> -> -> -> -> ->. reflexivity.
Qed.

Lemma timeUpdate_rest (FPS : Z) (s : state) : rest (timeUpdate FPS s) = rest s.
Proof.
  destruct s. unfold timeUpdate, rest. cbn.
  repeat match goal with
         | |- context [if ?c then _ else _] => destruct c; cbn
         end; reflexivity.
Qed.

(** One call of [timeUpdate] is [+1] on the frame number, modulo 24
    hours. *)
Lemma timeUpdate_frame_number (FPS : Z) (s : state) :
  1 <= FPS <= 256 -> valid FPS s ->
  valid FPS (timeUpdate FPS s) /\
  frame_number FPS (timeUpdate FPS s) = (frame_number FPS s + 1) mod day FPS.
Proof.
  intros HF (Hh & Hm & Hs & Hf).
  unfold valid, frame_number, day, timeUpdate, u8.
  destruct (Z.ltb_spec (frameCount s) (FPS - 1)).
  { cbn. rewrite (Z.mod_small (frameCount s + 1)) by lia.
    rewrite Z.mod_small by nia. split; [lia|ring]. }
  cbn. destruct (Z.ltb_spec (secondCount s) 59).
  { cbn. rewrite (Z.mod_small (secondCount s + 1)) by lia.
    rewrite Z.mod_small by nia. split; [lia|nia]. }
  cbn. destruct (Z.ltb_spec (minuteCount s) 59).
  { cbn. rewrite (Z.mod_small (minuteCount s + 1)) by lia.
    rewrite Z.mod_small by nia. split; [lia|nia]. }
  cbn. destruct (Z.ltb_spec (hourCount s) 23).
  { cbn. rewrite (Z.mod_small (hourCount s + 1)) by lia.
    rewrite Z.mod_small by nia. split; [lia|nia]. }
  cbn.
  replace (((hourCount s * 60 + minuteCount s) * 60 + secondCount s) * FPS
           + frameCount s + 1)
    with (FPS * 3600 * 24) by nia.
  rewrite Z.mod_same by lia. split; [lia|nia].
Qed.

Lemma timeUpdate_iter (FPS : Z) (n : nat) (s : state) :
  1 <= FPS <= 256 -> valid FPS s ->
  valid FPS (Nat.iter n (timeUpdate FPS) s) /\
  rest (Nat.iter n (timeUpdate FPS) s) = rest s /\
  frame_number FPS (Nat.iter n (timeUpdate FPS) s)
    = (frame_number FPS s + Z.of_nat n) mod day FPS.
Proof.
  intros HF Hv.
  assert (Hday : 0 < day FPS) by (unfold day; lia).
  assert (Hrange : 0 <= frame_number FPS s < day FPS).
  { destruct Hv as (Hh & Hm & Hs & Hf). unfold frame_number, day. nia. }
  induction n as [|n (IHv & IHr & IHn)].
  - cbn [Nat.iter nat_rect]. repeat split; try apply Hv.
    cbn [Z.of_nat]. rewrite Z.add_0_r, Z.mod_small; [reflexivity|exact Hrange].
  - rewrite Nat.iter_succ.
    destruct (timeUpdate_frame_number FPS _ HF IHv) as (Hv' & Hn').
    split; [exact Hv'|]. split.
    + rewrite timeUpdate_rest. exact IHr.
    + rewrite Hn', IHn, Z.add_mod_idemp_l by lia.
      f_equal. lia.
Qed.

(** Reading the fields back from a frame number that moved by a whole
    number of seconds. *)
Lemma frames_add (FPS k : Z) (s s' : state) :
  1 <= FPS -> 0 <= k -> valid FPS s -> valid FPS s' ->
  frame_number FPS s' = (frame_number FPS s + k * FPS) mod day FPS ->
  frameCount s' = frameCount s /\
  second_number s' = (second_number s + k) mod 86400.
Proof.
  intros HF Hk (Hh & Hm & Hs & Hf) (Hh' & Hm' & Hs' & Hf').
  unfold frame_number, day.
  fold (second_number s). fold (second_number s').
  assert (HX : 0 <= second_number s < 86400) by (unfold second_number; lia).
  assert (HX' : 0 <= second_number s' < 86400) by (unfold second_number; lia).
  generalize dependent (second_number s).
  generalize dependent (second_number s').
  intros X' HX' X HX E.
  replace (X * FPS + frameCount s + k * FPS)
    with (frameCount s + (X + k) * FPS) in E by ring.
  assert (Hd : (frameCount s + (X + k) * FPS) mod (FPS * 3600 * 24)
               = frameCount s + ((X + k) mod 86400) * FPS).
  { replace (FPS * 3600 * 24) with (FPS * 86400) by ring.
    assert (A1 : (frameCount s + (X + k) * FPS) mod FPS = frameCount s)
      by (rewrite Z.mod_add by lia; apply Z.mod_small; lia).
    assert (A2 : (frameCount s + (X + k) * FPS) / FPS = X + k)
      by (rewrite Z.div_add by lia; rewrite Z.div_small by lia; lia).
    rewrite Z.rem_mul_r by lia. rewrite A1, A2. ring. }
  rewrite Hd in E.
  assert (Hr : 0 <= (X + k) mod 86400 < 86400)
    by (apply Z.mod_pos_bound; lia).
  set (R := (X + k) mod 86400) in *. clearbody R.
  assert (HXR : X' = R).
  { destruct (Z.lt_trichotomy X' R) as [Hlt | [Heq | Hgt]]; [|exact Heq|].
    - exfalso.
      assert ((X' + 1) * FPS <= R * FPS)
        by (apply Z.mul_le_mono_nonneg_r; lia).
      lia.
    - exfalso.
      assert ((R + 1) * FPS <= X' * FPS)
        by (apply Z.mul_le_mono_nonneg_r; lia).
      lia. }
  subst X'. split; [lia|reflexivity].
Qed.

(** [n = k * FPS] calls: [k] seconds' worth. *)
Lemma timeUpdate_seconds (FPS k n : Z) (s : state) :
  1 <= FPS <= 256 -> 0 <= k -> n = k * FPS -> valid FPS s ->
  valid FPS (Nat.iter (Z.to_nat n) (timeUpdate FPS) s) /\
  rest (Nat.iter (Z.to_nat n) (timeUpdate FPS) s) = rest s /\
  frameCount (Nat.iter (Z.to_nat n) (timeUpdate FPS) s) = frameCount s /\
  second_number (Nat.iter (Z.to_nat n) (timeUpdate FPS) s)
    = (second_number s + k) mod 86400.
Proof.
  intros HF Hk Hn Hv.
  destruct (timeUpdate_iter FPS (Z.to_nat n) s HF Hv) as (Hv' & Hr' & Hn').
  rewrite Z2Nat.id in Hn' by nia.
  rewrite Hn in Hn' at 2.
  destruct (frames_add FPS k s _ ltac:(lia) Hk Hv Hv' Hn') as (Hf & Hs).
  repeat split; try assumption; apply Hv'.
Qed.

(** C7, as the code has it: for a frame rate of 24, 25 or 30 and a
    valid counter, [FPS] calls of [timeUpdate] advance seconds by one
    (modulo 60; the time of day in seconds advances by one modulo
    86400, so the carry reaches minutes and hours) and bring frames back
    to the value they started from, which is 0 when they started at 0;
    [FPS*60] calls advance minutes by one (modulo 60; the time of day
    advances by 60 seconds) and bring seconds and frames back;
    [FPS*3600*24] calls give back the very same state. *)
Theorem timeUpdate_periods (FPS : Z) (s : state) :
  FPS = 24 \/ FPS = 25 \/ FPS = 30 -> valid FPS s ->
  (frameCount (Nat.iter (Z.to_nat FPS) (timeUpdate FPS) s) = frameCount s /\
   secondCount (Nat.iter (Z.to_nat FPS) (timeUpdate FPS) s)
     = (secondCount s + 1) mod 60 /\
   second_number (Nat.iter (Z.to_nat FPS) (timeUpdate FPS) s)
     = (second_number s + 1) mod 86400) /\
  (frameCount s = 0 ->
   frameCount (Nat.iter (Z.to_nat FPS) (timeUpdate FPS) s) = 0) /\
  (frameCount (Nat.iter (Z.to_nat (FPS * 60)) (timeUpdate FPS) s)
     = frameCount s /\
   secondCount (Nat.iter (Z.to_nat (FPS * 60)) (timeUpdate FPS) s)
     = secondCount s /\
   minuteCount (Nat.iter (Z.to_nat (FPS * 60)) (timeUpdate FPS) s)
     = (minuteCount s + 1) mod 60 /\
   second_number (Nat.iter (Z.to_nat (FPS * 60)) (timeUpdate FPS) s)
     = (second_number s + 60) mod 86400) /\
  Nat.iter (Z.to_nat (FPS * 3600 * 24)) (timeUpdate FPS) s = s.
Proof.
  intros HF Hv.
  assert (HF' : 1 <= FPS <= 256) by lia.
  destruct (timeUpdate_seconds FPS 1 FPS s HF') as (V1 & _ & F1 & S1);
    [lia | lia | exact Hv |].
  destruct (timeUpdate_seconds FPS 60 (FPS * 60) s HF') as (V2 & _ & F2 & S2);
    [lia | lia | exact Hv |].
  destruct (timeUpdate_seconds FPS 86400 (FPS * 3600 * 24) s HF')
    as (V3 & R3 & F3 & S3); [lia | lia | exact Hv |].
  set (s1 := Nat.iter (Z.to_nat FPS) (timeUpdate FPS) s) in *.
  set (s2 := Nat.iter (Z.to_nat (FPS * 60)) (timeUpdate FPS) s) in *.
  set (s3 := Nat.iter (Z.to_nat (FPS * 3600 * 24)) (timeUpdate FPS) s) in *.
  clearbody s1 s2 s3.
  split; [split; [exact F1 | split; [|exact S1]]|].
  { unfold second_number, valid in *.
    Z.to_euclidean_division_equations; lia. }
  split; [intros H0; rewrite F1; exact H0|].
  split; [split; [exact F2 | split; [|split; [|exact S2]]]|].
  { unfold second_number, valid in *.
    Z.to_euclidean_division_equations; lia. }
  { unfold second_number, valid in *.
    Z.to_euclidean_division_equations; lia. }
  unfold second_number, valid in *.
  apply state_eq; [|exact R3].
  unfold timecode.
  assert (hourCount s3 = hourCount s /\ minuteCount s3 = minuteCount s /\
          secondCount s3 = secondCount s)
    as (-> & -> & ->) by (Z.to_euclidean_division_equations; lia).
  rewrite F3. reflexivity.
Qed.

Lemma timeUpdate_periods_witness :
  let s := set_frameCount 7 (set_secondCount 56 (set_minuteCount 34
             (set_hourCount 12 (boot 0)))) in
  valid 30 s /\
  secondCount (Nat.iter (Z.to_nat 30) (timeUpdate 30) s)
    = (secondCount s + 1) mod 60 /\
  Nat.iter (Z.to_nat (30 * 3600 * 24)) (timeUpdate 30) s = s.
Proof.
  intros s.
  assert (Hv : valid 30 s) by (unfold valid; cbn; lia).
  destruct (timeUpdate_periods 30 s) as ((_ & H1 & _) & _ & _ & H4).
  - right; right; reflexivity.
  - exact Hv.
  - split; [exact Hv|]. split; [exact H1 | exact H4].
Defined.

(** C7 as stated fails on "resets frames to 0": at 30 frames per second,
    from 00:00:00:05, thirty calls give 00:00:01:05.  Frames are back at
    5, not at 0. *)
Lemma timeUpdate_periods_counterexample :
  let s := set_frameCount 5 (boot 0) in
  valid 30 s /\
  timecode (Nat.iter 30 (timeUpdate 30) s) = (0, 0, 1, 5) /\
  (frameCount (Nat.iter 30 (timeUpdate 30) s) =? 0) = false.
Proof.
  split.
  - unfold valid; cbn; lia.
  - vm_compute. split; reflexivity.
Qed.

(** ** The quarter-frame wire format, as sent and as received *)

Lemma land_15_shiftr_4 (x : Z) : Z.shiftr (u8 (Z.land x 0x0F)) 4 = 0.
Proof.
  unfold u8.
  change 0x0F with (Z.ones 4). rewrite Z.land_ones by lia.
  assert (H : 0 <= x mod 2 ^ 4 < 2 ^ 4) by (apply Z.mod_pos_bound; lia).
  change (2 ^ 4) with 16 in *.
  rewrite (Z.mod_small (x mod 16)) by lia.
  rewrite Z.shiftr_div_pow2 by lia.
  apply Z.div_small. exact H.
Qed.

(** What goes out on the wire, for every state: the eight tag bytes are
    F1 F1 F3 F3 F5 F5 F7 F7, and the bytes sent as the high nibbles of
    frames, seconds and minutes are 0. *)
Lemma sendMTCQuarterFrame_wire (s : state) :
  UDR0_sent (sendMTCQuarterFrame s) =
    UDR0_sent s ++
    [ 0xF1; u8 (u8 (Z.land (frameCount s) 0x0F)); 0xF1; 0;
      0xF3; u8 (u8 (Z.land (secondCount s) 0x0F)); 0xF3; 0;
      0xF5; u8 (u8 (Z.land (minuteCount s) 0x0F)); 0xF5; 0;
      0xF7; u8 (u8 (Z.land (hourCount s) 0x1F));
      0xF7; u8 (Z.shiftr (u8 (Z.land (hourCount s) 0x1F)) 4) ].
Proof.
  rewrite sendMTCQuarterFrame_sends. destruct s. cbn [UDR0_sent set_UDR0_sent].
  unfold quarter_frame_bytes.
  cbn [hourCount minuteCount secondCount frameCount].
  rewrite !land_15_shiftr_4. reflexivity.
Qed.

(** C8 at 17:45:50:20.  The code sends sixteen bytes.  The tags carry
    the slot numbers 1 1 3 3 5 5 7 7 instead of 0..7; the high nibbles
    of frames (1), seconds (3) and minutes (2) go out as 0; the byte for
    the low nibble of hours is 17, which does not fit in four bits. *)
Theorem sendMTCQuarterFrame_at_17_45_50_20 :
  let s := set_frameCount 20 (set_secondCount 50 (set_minuteCount 45
             (set_hourCount 17 (boot 0)))) in
  UDR0_sent (sendMTCQuarterFrame s) =
    [0xF1; 4; 0xF1; 0; 0xF3; 2; 0xF3; 0; 0xF5; 13; 0xF5; 0; 0xF7; 17; 0xF7; 1]
  /\
  map (fun b => Z.land b 0x0F)
      [0xF1; 0xF1; 0xF3; 0xF3; 0xF5; 0xF5; 0xF7; 0xF7]
    = [1; 1; 3; 3; 5; 5; 7; 7] /\
  (Z.shiftr 20 4, Z.shiftr 50 4, Z.shiftr 45 4) = (1, 3, 2).
Proof. vm_compute. repeat split. Qed.

(** C1 at 01:02:03:04.  The transmitter's bytes, fed one by one to a
    freshly booted receiver, leave the receiver as it was: its counter
    reads 00:00:00:00, not 01:02:03:04. *)
Theorem round_trip_at_1_2_3_4 :
  let sender := set_frameCount 4 (set_secondCount 3 (set_minuteCount 2
                  (set_hourCount 1 (boot 0)))) in
  let bytes := UDR0_sent (sendMTCQuarterFrame sender) in
  timecode sender = (1, 2, 3, 4) /\
  bytes = [0xF1; 4; 0xF1; 0; 0xF3; 3; 0xF3; 0;
           0xF5; 2; 0xF5; 0; 0xF7; 1; 0xF7; 0] /\
  receive bytes (boot 0) = Some (boot 0) /\
  option_map timecode (receive bytes (boot 0)) = Some (0, 0, 0, 0).
Proof. vm_compute. repeat split. Qed.

(** C2 on a freshly booted receiver.  The slot-7 message (tag byte
    [0xF7], data byte 0) is ignored: [clockStarted] stays false, where a
    reassembly would have set it. *)
Theorem slot7_on_fresh_receiver :
  receive [0xF7; 0x00] (boot 0) = Some (boot 0) /\
  option_map clockStarted (receive [0xF7; 0x00] (boot 0)) = Some false /\
  clockStarted (reassemble (boot 0)) = true /\
  timecode (reassemble (boot 0)) = (0, 0, 0, 0).
Proof. vm_compute. repeat split. Qed.

(** * Further properties of the code *)

(** ** The counter at any frame rate *)

(** X1: at every frame rate from 1 to 256, which covers the four rates
    of the menu (24, 25, 30 and 29), [n] calls of [timeUpdate] on a
    valid counter give a valid counter whose frame number is [n]
    further, modulo 24 hours; nothing but the counter changes. *)
Theorem timeUpdate_counts_frames (FPS : Z) (n : nat) (s : state) :
  1 <= FPS <= 256 -> valid FPS s ->
  valid FPS (Nat.iter n (timeUpdate FPS) s) /\
  frame_number FPS (Nat.iter n (timeUpdate FPS) s)
    = (frame_number FPS s + Z.of_nat n) mod day FPS /\
  rest (Nat.iter n (timeUpdate FPS) s) = rest s.
Proof.
  intros HF Hv.
  destruct (timeUpdate_iter FPS n s HF Hv) as (H1 & H2 & H3).
  split; [exact H1|]. split; [exact H3 | exact H2].
Qed.

Lemma timeUpdate_counts_frames_witness :
  let s := set_frameCount 28 (set_secondCount 59 (set_minuteCount 59
             (set_hourCount 23 (boot 0)))) in
  valid 29 s /\
  frame_number 29 (Nat.iter 3 (timeUpdate 29) s)
    = (frame_number 29 s + 3) mod day 29 /\
  timecode (Nat.iter 3 (timeUpdate 29) s) = (0, 0, 0, 2).
Proof.
  intros s.
  assert (Hv : valid 29 s) by (unfold valid; cbn; lia).
  destruct (timeUpdate_counts_frames 29 3 s) as (_ & H & _);
    [lia | exact Hv |].
  split; [exact Hv|]. split; [exact H | reflexivity].
Defined.

(** One call brings any eight-bit frame count back in range. *)
Lemma timeUpdate_heals (FPS : Z) (s : state) :
  1 <= FPS <= 256 ->
  0 <= hourCount s < 24 -> 0 <= minuteCount s < 60 ->
  0 <= secondCount s < 60 -> byte (frameCount s) ->
  valid FPS (timeUpdate FPS s) /\
  (FPS - 1 <= frameCount s ->
     frameCount (timeUpdate FPS s) = 0 /\
     second_number (timeUpdate FPS s) = (second_number s + 1) mod 86400).
Proof.
  intros HF Hh Hm Hs Hf. unfold byte in Hf.
  unfold valid, second_number, timeUpdate, u8.
  destruct (Z.ltb_spec (frameCount s) (FPS - 1)).
  { cbn. rewrite (Z.mod_small (frameCount s + 1)) by lia.
    split; [lia|]. intros; lia. }
  cbn. destruct (Z.ltb_spec (secondCount s) 59).
  { cbn. rewrite (Z.mod_small (secondCount s + 1)) by lia.
    split; [lia|]. intros _. split; [reflexivity|].
    rewrite Z.mod_small by lia. ring. }
  cbn. destruct (Z.ltb_spec (minuteCount s) 59).
  { cbn. rewrite (Z.mod_small (minuteCount s + 1)) by lia.
    split; [lia|]. intros _. split; [reflexivity|].
    rewrite Z.mod_small by lia. lia. }
  cbn. destruct (Z.ltb_spec (hourCount s) 23).
  { cbn. rewrite (Z.mod_small (hourCount s + 1)) by lia.
    split; [lia|]. intros _. split; [reflexivity|].
    rewrite Z.mod_small by lia. lia. }
  cbn. split; [lia|]. intros _. split; [reflexivity|].
  replace ((hourCount s * 60 + minuteCount s) * 60 + secondCount s + 1)
    with 86400 by lia.
  reflexivity.
Qed.

(** X2: a frame count left out of range by a change of frame rate is
    back in range after one call.  With hours, minutes and seconds in
    range and any eight-bit frame count, [timeUpdate] returns a valid
    counter; a frame count at or past [FPS - 1] is reset to 0 and the
    second is carried. *)
Theorem timeUpdate_restores_validity (FPS : Z) (s : state) :
  1 <= FPS <= 256 ->
  0 <= hourCount s < 24 -> 0 <= minuteCount s < 60 ->
  0 <= secondCount s < 60 -> byte (frameCount s) ->
  valid FPS (timeUpdate FPS s) /\
  (FPS - 1 <= frameCount s ->
     frameCount (timeUpdate FPS s) = 0 /\
     second_number (timeUpdate FPS s) = (second_number s + 1) mod 86400).
Proof.
  intros HF Hh Hm Hs Hf. apply timeUpdate_heals; assumption.
Qed.

Lemma timeUpdate_restores_validity_witness :
  let s := set_frameCount 29 (set_secondCount 10 (boot 0)) in
  valid 24 (timeUpdate 24 s) /\
  timecode (timeUpdate 24 s) = (0, 0, 11, 0).
Proof.
  intros s.
  destruct (timeUpdate_restores_validity 24 s) as (H & _);
    try (cbn; lia); [unfold byte; cbn; lia|].
  split; [exact H | reflexivity].
Defined.

(** ** What every reachable state satisfies *)

Lemma valid_timecode (FPS : Z) (s1 s2 : state) :
  timecode s1 = timecode s2 -> valid FPS s1 -> valid FPS s2.
Proof.
  unfold timecode, valid. intros E. injection E as -> -> -> ->. auto.
Qed.

Lemma setLTCLevel_rest (s : state) :
  mtcQuarterFrame (setLTCLevel s) = mtcQuarterFrame s /\
  UDR0_sent (setLTCLevel s) = UDR0_sent s.
Proof.
  unfold setLTCLevel. destruct (bitCount s <? 80); cbn.
  - destruct (u8 _ =? 0); cbn; split; reflexivity.
  - split; reflexivity.
Qed.

Lemma level_of_byte (b : bool) : byte (level_of b).
Proof. destruct b; unfold byte, level_of, highLevel, lowLevel; lia. Qed.

Lemma boot_consistent (FPS o : Z) :
  1 <= FPS -> byte o -> consistent FPS (boot o).
Proof.
  intros HF Ho. unfold consistent, valid. cbn.
  repeat split; try lia; auto; apply Ho.
Qed.

Lemma loop_consistent (FPS : Z) (a b : bool) (s : state) :
  consistent FPS s -> consistent FPS (loop a b s).
Proof.
  destruct (loop_frame a b s) as (Htc & Hbc & Ho).
  intros (Hv & Hc & Ht & Hs & Hp & Hq & Hb).
  split; [apply (valid_timecode FPS s); [symmetry; exact Htc | exact Hv]|].
  split; [rewrite Hbc; exact Hc|].
  assert (Hrest : (transportState (loop a b s) = TRANSPORT_STOPPED \/
                   transportState (loop a b s) = TRANSPORT_RUNNING \/
                   transportState (loop a b s) = TRANSPORT_PAUSED) /\
                  clockStarted (loop a b s)
                    = negb (transportState (loop a b s) =? TRANSPORT_STOPPED) /\
                  clockPaused (loop a b s)
                    = (transportState (loop a b s) =? TRANSPORT_PAUSED) /\
                  mtcQuarterFrame (loop a b s) = [0; 0; 0; 0; 0; 0; 0; 0]).
  { clear Htc Hbc Ho Hv Hc Hb.
    destruct s as [h m sc f bc cb ll cs cp t q fc pq o tx].
    unfold TRANSPORT_STOPPED, TRANSPORT_RUNNING, TRANSPORT_PAUSED in *.
    cbn in Ht, Hs, Hp, Hq.
    unfold loop, TRANSPORT_STOPPED, TRANSPORT_RUNNING, TRANSPORT_PAUSED.
    cbv zeta. rewrite ?sendMTCQuarterFrame_sends.
    destruct Ht as [-> | [-> | ->]]; cbn in Hs, Hp; subst cs cp q;
      destruct a, b; cbn; rewrite ?sendMTCQuarterFrame_sends; cbn;
      repeat split; auto. }
  destruct Hrest as (H1 & H2 & H3 & H4).
  repeat (split; [assumption|]). rewrite Ho. exact Hb.
Qed.

Lemma tick_consistent (FPS : Z) (s : state) :
  1 <= FPS <= 256 -> consistent FPS s ->
  consistent FPS (TIMER1_COMPA_vect FPS s).
Proof.
  intros HF Hcons.
  destruct (negb (clockPaused s) && clockStarted s) eqn:Hg.
  2:{ unfold TIMER1_COMPA_vect. rewrite Hg. exact Hcons. }
  assert (Hr : running s).
  { apply andb_true_iff in Hg. destruct Hg as [Hg1 Hg2].
    split; [exact Hg2|]. destruct (clockPaused s); [discriminate|reflexivity]. }
  destruct Hcons as (Hv & Hc & Ht & Hs & Hp & Hq & Hb).
  assert (Hflags : clockStarted (TIMER1_COMPA_vect FPS s)
                     = negb (transportState (TIMER1_COMPA_vect FPS s)
                             =? TRANSPORT_STOPPED) /\
                   clockPaused (TIMER1_COMPA_vect FPS s)
                     = (transportState (TIMER1_COMPA_vect FPS s)
                        =? TRANSPORT_PAUSED)).
  { destruct (TIMER1_keeps_running FPS s Hr) as (R1 & R2).
    destruct Hr as (H1 & H2).
    rewrite TIMER1_transportState, R1, R2, <- Hs, <- Hp, H1, H2.
    split; reflexivity. }
  rewrite <- (TIMER1_transportState FPS s) in Ht.
  assert (Hrun := Hr).
  assert (Hcases : bitCount s < 79 \/ bitCount s = 79 \/ bitCount s = 80)
    by lia.
  destruct (setLTCLevel_rest s) as (Q1 & _).
  destruct (timeUpdate_frame FPS (setLTCLevel s))
    as (_ & _ & _ & _ & _ & _ & Q2 & Q3 & _).
  destruct Hcases as [H | [H | H]].
  - destruct (tick_below_79 FPS s Hrun) as (E & B & T); [lia|].
    destruct (setLTCLevel_bit s) as (_ & O & _ & _); [lia|].
    split; [apply (valid_timecode FPS s); [symmetry; exact T | exact Hv]|].
    split; [rewrite B; lia|]. split; [exact Ht|].
    split; [apply Hflags|]. split; [apply Hflags|].
    rewrite E. split; [rewrite Q1; exact Hq|].
    rewrite O. apply level_of_byte.
  - destruct (tick_at_79 FPS s Hrun H) as (E & B & T).
    destruct (setLTCLevel_bit s) as (_ & O & _ & _); [lia|].
    destruct (timeUpdate_frame_number FPS s HF Hv) as (V & _).
    split; [apply (valid_timecode FPS (timeUpdate FPS s));
            [symmetry; exact T | exact V]|].
    split; [rewrite B; lia|]. split; [exact Ht|].
    split; [apply Hflags|]. split; [apply Hflags|].
    rewrite E. split; [rewrite Q2, Q1; exact Hq|].
    rewrite Q3, O. apply level_of_byte.
  - destruct (tick_at_80 FPS s Hrun) as (E & B & O & T); [lia|].
    split; [apply (valid_timecode FPS s); [symmetry; exact T | exact Hv]|].
    split; [rewrite B; lia|]. split; [exact Ht|].
    split; [apply Hflags|]. split; [apply Hflags|].
    split; [rewrite E; destruct s; exact Hq|].
    rewrite O. unfold byte, groundLevel. lia.
Qed.

(** X3: from reset, whatever the buttons, ticks and received bytes, the
    device stays in a consistent state: the counter is a valid time of
    day for the frame rate, the cursor is between 0 and 80, the
    transport state is one of the three, [clockStarted] is true exactly
    when the transport is not stopped, [clockPaused] exactly when it is
    paused, the assembly slots are still all zero, and [OCR2A] holds an
    eight-bit value. *)
Theorem reachable_consistent (FPS : Z) (s : state) :
  1 <= FPS <= 256 -> reachable FPS s -> consistent FPS s.
Proof.
  intros HF Hr. induction Hr as [o Ho | a b s Hs IH | s Hs IH | b s s' Hs IH Hb E].
  - apply boot_consistent; [lia | exact Ho].
  - apply loop_consistent. exact IH.
  - apply tick_consistent; assumption.
  - rewrite USART_RX_vect_skips in E. injection E as <-. exact IH.
Qed.

Lemma reachable_consistent_witness :
  let s := loop false true
             (TIMER1_COMPA_vect 30 (loop true false (boot 0))) in
  reachable 30 s /\ consistent 30 s.
Proof.
  intros s.
  assert (Hr : reachable 30 s).
  { apply reach_loop, reach_tick, reach_loop, reach_boot. unfold byte. lia. }
  split; [exact Hr|].
  apply (reachable_consistent 30 s); [lia | exact Hr].
Defined.

(** ** Only the start button starts the clock *)

Lemma step_without_start (FPS o : Z) (e : event) :
  presses_start e = false -> step FPS e (boot o) = Some (boot o).
Proof.
  destruct e as [a b | | x]; cbn [presses_start step].
  - destruct a; [discriminate|]. intros _. destruct b; reflexivity.
  - intros _. reflexivity.
  - intros _. apply USART_RX_vect_skips.
Qed.

(** X4: after reset the device does nothing until a pass of [loop] sees
    the start button pressed.  Any sequence of fast ticks, received
    bytes (MIDI timecode included) and passes of [loop] without the
    start button leaves every global, the output level and the transmit
    log exactly as they were at reset. *)
Theorem inert_until_start (FPS o : Z) (es : list event) :
  forallb (fun e => negb (presses_start e)) es = true ->
  run FPS es (boot o) = Some (boot o).
Proof.
  induction es as [|e es IH]; intros H.
  - reflexivity.
  - cbn [forallb] in H. apply andb_true_iff in H. destruct H as [He Hes].
    cbn [run]. rewrite step_without_start.
    + apply IH. exact Hes.
    + destruct (presses_start e); [discriminate He | reflexivity].
Qed.

Lemma inert_until_start_witness :
  run 30 [Tick; Receive 0xF1; Receive 0x07; Pass false true; Tick;
          Receive 0xFA; Pass false false] (boot 0)
    = Some (boot 0).
Proof.
  apply (inert_until_start 30 0). reflexivity.
Defined.

(** ** When [loop] transmits *)

(** X5: a pass of [loop] writes to the USART exactly when it ends with
    the transport running, and then it writes the sixteen bytes of one
    [sendMTCQuarterFrame] call, once per pass; a pass that ends stopped
    or paused writes nothing.  The precondition, that a running
    transport is not flagged paused, holds in every reachable state. *)
Theorem loop_transmits_when_running (a b : bool) (s : state) :
  (transportState s = TRANSPORT_RUNNING -> clockPaused s = false) ->
  UDR0_sent (loop a b s) =
    UDR0_sent s ++
    (if transportState (loop a b s) =? TRANSPORT_RUNNING
     then quarter_frame_bytes s else []) /\
  length (quarter_frame_bytes s) = 16%nat.
Proof.
  intros H. split; [|reflexivity].
  destruct s as [h m sc f bc cb ll cs cp t q fc pq o tx].
  unfold TRANSPORT_RUNNING in H. cbn in H.
  unfold loop, TRANSPORT_STOPPED, TRANSPORT_RUNNING, TRANSPORT_PAUSED.
  cbv zeta. rewrite ?sendMTCQuarterFrame_sends.
  destruct (Z.eq_dec t 0) as [-> | N0];
    [|destruct (Z.eq_dec t 1) as [-> | N1];
      [rewrite (H eq_refl)
      |destruct (Z.eq_dec t 2) as [-> | N2]]];
    destruct a, b; cbn -[Z.eqb quarter_frame_bytes];
    repeat match goal with
           | N : t <> ?k |- context [t =? ?k] =>
               rewrite (proj2 (Z.eqb_neq t k) N);
               cbn -[Z.eqb quarter_frame_bytes]
           end;
    cbn -[quarter_frame_bytes];
    rewrite ?sendMTCQuarterFrame_sends; cbn -[quarter_frame_bytes];
    rewrite ?app_nil_r; reflexivity.
Qed.

Lemma loop_transmits_when_running_witness :
  let s := loop true false (boot 0) in
  UDR0_sent (loop false false s) =
    UDR0_sent s ++ quarter_frame_bytes s /\
  UDR0_sent (loop false true s) = UDR0_sent s.
Proof.
  intros s.
  destruct (loop_transmits_when_running false false s) as (H1 & _);
    [reflexivity|].
  destruct (loop_transmits_when_running false true s) as (H2 & _);
    [reflexivity|].
  split.
  - exact H1.
  - rewrite H2. apply app_nil_r.
Defined.

(** ** Stop and start do not touch the counter *)

Lemma TIMER1_not_started (FPS : Z) (s : state) :
  clockStarted s = false -> TIMER1_COMPA_vect FPS s = s.
Proof.
  intros H. unfold TIMER1_COMPA_vect. rewrite H, andb_false_r. reflexivity.
Qed.

Lemma TIMER1_not_started_iter (FPS : Z) (n : nat) (s : state) :
  clockStarted s = false -> Nat.iter n (TIMER1_COMPA_vect FPS) s = s.
Proof.
  intros H. induction n as [|n IH].
  - reflexivity.
  - rewrite Nat.iter_succ, IH. apply TIMER1_not_started. exact H.
Qed.

(** X6: stopping does not reset anything.  From a running transport:
    pause, stop, any number of fast ticks while stopped, then start.
    The transport runs again, and the counter, the cursor and the
    output level are exactly what they were before the pause, so the
    bit stream resumes in the middle of the frame it was in. *)
Theorem stop_start_resumes (FPS : Z) (n : nat) (s : state) :
  transportState s = TRANSPORT_RUNNING ->
  let stopped := loop false true (loop false true s) in
  let restarted :=
    loop true false (Nat.iter n (TIMER1_COMPA_vect FPS) stopped) in
  transportState stopped = TRANSPORT_STOPPED /\
  Nat.iter n (TIMER1_COMPA_vect FPS) stopped = stopped /\
  transportState restarted = TRANSPORT_RUNNING /\
  clockStarted restarted = true /\ clockPaused restarted = false /\
  timecode restarted = timecode s /\
  bitCount restarted = bitCount s /\
  OCR2A restarted = OCR2A s.
Proof.
  intros H stopped restarted.
  destruct (loop_pause s H) as (E1 & _).
  destruct (loop_stop (loop false true s)) as (E2 & E3 & _);
    [rewrite E1; discriminate|].
  fold stopped in E2, E3.
  assert (Ei := TIMER1_not_started_iter FPS n stopped E3).
  subst restarted. rewrite Ei.
  destruct (loop_start stopped (or_introl E2)) as (S1 & S2 & S3).
  destruct (loop_frame true false stopped) as (F1 & F2 & F3).
  destruct (loop_frame false true (loop false true s)) as (G1 & G2 & G3).
  destruct (loop_frame false true s) as (K1 & K2 & K3).
  fold stopped in G1, G2, G3.
  repeat (split; [assumption || reflexivity|]).
  split; [congruence|]. split; congruence.
Qed.

Lemma stop_start_resumes_witness :
  let s := Nat.iter 40 (TIMER1_COMPA_vect 30) (loop true false (boot 0)) in
  let restarted :=
    loop true false
      (Nat.iter 7 (TIMER1_COMPA_vect 30)
         (loop false true (loop false true s))) in
  bitCount s = 40 /\
  bitCount restarted = bitCount s /\ timecode restarted = timecode s.
Proof.
  intros s restarted.
  destruct (stop_start_resumes 30 7 s) as (_ & _ & _ & _ & _ & H6 & H7 & _);
    [reflexivity|].
  split; [reflexivity|]. split; [exact H7 | exact H6].
Defined.

(** ** One frame on the line *)

Lemma selected_bit_timecode (s1 s2 : state) (c : Z) :
  timecode s1 = timecode s2 -> selected_bit s1 c = selected_bit s2 c.
Proof.
  unfold timecode, selected_bit. intros E.
  injection E as -> -> -> ->. reflexivity.
Qed.

Lemma tick_level_exact (FPS : Z) (s : state) :
  running s -> 0 <= bitCount s < 80 ->
  OCR2A (TIMER1_COMPA_vect FPS s) = level_of (selected_bit s (bitCount s)).
Proof.
  intros Hr Hc. rewrite (TIMER1_running FPS s Hr).
  destruct (setLTCLevel_bit s Hc) as (_ & Ho & _ & _).
  destruct (timeUpdate_frame FPS (setLTCLevel s))
    as (_ & _ & _ & _ & _ & _ & _ & E & _).
  destruct (bitCount (setLTCLevel s) =? 80); [rewrite E|]; exact Ho.
Qed.

Lemma tick_levels_selected (FPS : Z) (n : nat) (s : state) :
  running s -> 0 <= bitCount s -> bitCount s + Z.of_nat n <= 80 ->
  tick_levels FPS n s =
    map (fun c => level_of (selected_bit s c)) (positions (bitCount s) n).
Proof.
  revert s. induction n as [|n IH]; intros s Hr H0 Hn.
  - reflexivity.
  - cbn [tick_levels positions map]. f_equal.
    + apply tick_level_exact; [exact Hr | lia].
    + destruct n as [|n]; [reflexivity|].
      destruct (tick_below_79 FPS s Hr) as (_ & B & T); [lia|].
      rewrite IH; [|apply TIMER1_keeps_running; exact Hr | lia | lia].
      rewrite B. apply map_ext. intros c.
      rewrite (selected_bit_timecode _ s c T). reflexivity.
Qed.

Lemma ticks_to_80 (FPS : Z) (s : state) :
  running s -> bitCount s = 0 ->
  running (Nat.iter 80 (TIMER1_COMPA_vect FPS) s) /\
  bitCount (Nat.iter 80 (TIMER1_COMPA_vect FPS) s) = 80.
Proof.
  intros Hr Hz.
  destruct (ticks_before_79 FPS 79 s Hr) as (R79 & B79 & _); [lia | lia |].
  rewrite (Nat.iter_succ 79 state (TIMER1_COMPA_vect FPS) s).
  split; [apply TIMER1_keeps_running; exact R79|].
  apply (tick_at_79 FPS _ R79). rewrite B79, Hz. reflexivity.
Qed.

(** X7: one frame on the line.  With the clock started and not paused
    and the cursor at 0, the next 80 fast ticks put on [OCR2A], in
    order, the level of the bit selected at cursor 0, 1, ..., 79, every
    one taken from the counter as it stood when the frame began (the
    increment at the end of the frame does not leak into it); the 81st
    tick puts the ground level. *)
Theorem frame_on_the_line (FPS : Z) (s : state) :
  running s -> bitCount s = 0 ->
  tick_levels FPS 80 s =
    map (fun c => if selected_bit s c then highLevel else lowLevel)
        (positions 0 80) /\
  OCR2A (Nat.iter 81 (TIMER1_COMPA_vect FPS) s) = groundLevel.
Proof.
  intros Hr Hz. split.
  - rewrite (tick_levels_selected FPS 80 s Hr); [|lia | rewrite Hz; lia].
    rewrite Hz. reflexivity.
  - destruct (ticks_to_80 FPS s Hr Hz) as (R80 & B80).
    rewrite (Nat.iter_succ 80 state (TIMER1_COMPA_vect FPS) s).
    apply (tick_at_80 FPS _ R80). lia.
Qed.

Lemma frame_on_the_line_witness :
  let s := set_secondCount 5 (loop true false (boot 0)) in
  firstn 4 (skipn 32 (tick_levels 30 80 s))
    = [highLevel; lowLevel; highLevel; lowLevel] /\
  OCR2A (Nat.iter 81 (TIMER1_COMPA_vect 30) s) = groundLevel.
Proof.
  intros s.
  destruct (frame_on_the_line 30 s) as (H1 & H2);
    [split; reflexivity | reflexivity |].
  split; [rewrite H1; reflexivity | exact H2].
Defined.

(** Reading bits back into a number. *)
Lemma bits_value_testbit (n : nat) (x : Z) :
  bits_value (map (fun k => Z.testbit x (Z.of_nat k)) (seq 0 n))
    = x mod 2 ^ Z.of_nat n.
Proof.
  revert x. induction n as [|n IH]; intros x.
  - cbn. rewrite Z.mod_1_r. reflexivity.
  - cbn [seq map bits_value].
    rewrite <- seq_shift, map_map.
    rewrite (map_ext (fun k => Z.testbit x (Z.of_nat (S k)))
                     (fun k => Z.testbit (x / 2) (Z.of_nat k))).
    + rewrite IH. change (Z.of_nat 0) with 0.
      rewrite Z.bit0_mod, Nat2Z.inj_succ, Z.pow_succ_r by lia.
      rewrite (Z.rem_mul_r x 2 (2 ^ Z.of_nat n)) by lia.
      reflexivity.
    + intros k. rewrite Nat2Z.inj_succ, Z.div2_bits by lia. reflexivity.
Qed.

Lemma level_of_high (b : bool) : (level_of b =? highLevel) = b.
Proof. destruct b; reflexivity. Qed.

Lemma nth_positions (g : Z -> Z) (d : Z) (n i : nat) (c : Z) :
  (i < n)%nat -> nth i (map g (positions c n)) d = g (c + Z.of_nat i).
Proof.
  revert c i. induction n as [|n IH]; intros c i Hi; [lia|].
  destruct i as [|i]; cbn [positions map nth].
  - f_equal. cbn. lia.
  - rewrite IH by lia. f_equal. lia.
Qed.

(** The field a listener reads from cells [from .. from+len) of a
    frame. *)
Lemma field_value_frame (FPS : Z) (s : state) (from len : nat) :
  running s -> bitCount s = 0 -> (from + len <= 80)%nat ->
  field_value (tick_levels FPS 80 s) from len =
    bits_value
      (map (fun k => selected_bit s (Z.of_nat (from + k))) (seq 0 len)).
Proof.
  intros Hr Hz Hlen. unfold field_value. f_equal.
  apply map_ext_in. intros k Hk. apply in_seq in Hk.
  unfold cell_bit.
  rewrite (tick_levels_selected FPS 80 s Hr); [|lia | rewrite Hz; lia].
  rewrite Hz, nth_positions by lia.
  rewrite level_of_high. reflexivity.
Qed.

(** X8: what a listener gets back from a frame.  Reading cells 32..39,
    40..47 and 48..79 of the 80 levels as binary numbers, least
    significant bit first, gives exactly [secondCount], [minuteCount]
    and [hourCount]; every group of four cells among the first 32 gives
    [frameCount mod 16], so of the frame count only the low four bits
    are on the line. *)
Theorem frame_read_back (FPS : Z) (s : state) :
  running s -> bitCount s = 0 -> bytes_ok s ->
  field_value (tick_levels FPS 80 s) 32 8 = secondCount s /\
  field_value (tick_levels FPS 80 s) 40 8 = minuteCount s /\
  field_value (tick_levels FPS 80 s) 48 32 = hourCount s /\
  (forall j, (j < 8)%nat ->
     field_value (tick_levels FPS 80 s) (4 * j) 4 = frameCount s mod 16).
Proof.
  intros Hr Hz (Hh & Hm & Hs & Hf & _). unfold byte in *.
  split; [|split; [|split]].
  - rewrite (field_value_frame FPS s 32 8 Hr Hz) by lia.
    rewrite (map_ext_in _ (fun k => Z.testbit (secondCount s) (Z.of_nat k))).
    + rewrite bits_value_testbit. apply Z.mod_small. cbn. lia.
    + intros k Hk. apply in_seq in Hk.
      destruct (selected_bit_cases s (Z.of_nat (32 + k))) as (_ & C & _).
      rewrite C by lia. f_equal. lia.
  - rewrite (field_value_frame FPS s 40 8 Hr Hz) by lia.
    rewrite (map_ext_in _ (fun k => Z.testbit (minuteCount s) (Z.of_nat k))).
    + rewrite bits_value_testbit. apply Z.mod_small. cbn. lia.
    + intros k Hk. apply in_seq in Hk.
      destruct (selected_bit_cases s (Z.of_nat (40 + k))) as (_ & _ & C & _).
      rewrite C by lia. f_equal. lia.
  - rewrite (field_value_frame FPS s 48 32 Hr Hz) by lia.
    rewrite (map_ext_in _ (fun k => Z.testbit (hourCount s) (Z.of_nat k))).
    + rewrite bits_value_testbit. apply Z.mod_small. cbn. lia.
    + intros k Hk. apply in_seq in Hk.
      destruct (selected_bit_cases s (Z.of_nat (48 + k))) as (_ & _ & _ & C).
      rewrite C by lia. f_equal. lia.
  - intros j Hj.
    rewrite (field_value_frame FPS s (4 * j) 4 Hr Hz) by lia.
    rewrite (map_ext_in _ (fun k => Z.testbit (frameCount s) (Z.of_nat k))).
    + rewrite bits_value_testbit. reflexivity.
    + intros k Hk. apply in_seq in Hk.
      destruct (selected_bit_cases s (Z.of_nat (4 * j + k))) as (C & _).
      rewrite C by lia. f_equal.
      rewrite Nat2Z.inj_add, Nat2Z.inj_mul, Z.add_comm, Z.mul_comm.
      rewrite Z.mod_add by lia. apply Z.mod_small. lia.
Qed.

Lemma frame_read_back_witness :
  let s := set_frameCount 20 (set_secondCount 50 (set_minuteCount 45
             (set_hourCount 17 (loop true false (boot 0))))) in
  field_value (tick_levels 30 80 s) 32 8 = 50 /\
  field_value (tick_levels 30 80 s) 40 8 = 45 /\
  field_value (tick_levels 30 80 s) 48 32 = 17 /\
  field_value (tick_levels 30 80 s) 0 4 = 4.
Proof.
  intros s.
  destruct (frame_read_back 30 s) as (H1 & H2 & H3 & H4).
  - split; reflexivity.
  - reflexivity.
  - unfold bytes_ok, byte; cbn; lia.
  - split; [exact H1|]. split; [exact H2|]. split; [exact H3|].
    apply (H4 0%nat). lia.
Defined.

(** X9: the line cannot tell frame counts 16 apart.  Two started clocks
    at cursor 0 with the same hours, minutes and seconds and frame
    counts that agree modulo 16 (such as 4 and 20) put the same 80
    levels on the output. *)
Theorem frames_16_apart_look_alike (FPS : Z) (s1 s2 : state) :
  running s1 -> running s2 -> bitCount s1 = 0 -> bitCount s2 = 0 ->
  hourCount s1 = hourCount s2 -> minuteCount s1 = minuteCount s2 ->
  secondCount s1 = secondCount s2 ->
  frameCount s1 mod 16 = frameCount s2 mod 16 ->
  tick_levels FPS 80 s1 = tick_levels FPS 80 s2.
Proof.
  intros R1 R2 Z1 Z2 Hh Hm Hs Hf.
  rewrite (tick_levels_selected FPS 80 s1 R1); [|lia | rewrite Z1; lia].
  rewrite (tick_levels_selected FPS 80 s2 R2); [|lia | rewrite Z2; lia].
  rewrite Z1, Z2. apply map_ext. intros c. f_equal.
  unfold selected_bit. rewrite Hh, Hm, Hs.
  destruct (c <? 32); [|reflexivity].
  assert (Hc : 0 <= c mod 4 < 4) by (apply Z.mod_pos_bound; lia).
  rewrite <- (Z.mod_pow2_bits_low (frameCount s1) 4 (c mod 4)) by lia.
  rewrite <- (Z.mod_pow2_bits_low (frameCount s2) 4 (c mod 4)) by lia.
  change (2 ^ 4) with 16. rewrite Hf. reflexivity.
Qed.

Lemma frames_16_apart_look_alike_witness :
  let s1 := set_frameCount 4 (loop true false (boot 0)) in
  let s2 := set_frameCount 20 (loop true false (boot 0)) in
  tick_levels 30 80 s1 = tick_levels 30 80 s2.
Proof.
  intros s1 s2.
  apply (frames_16_apart_look_alike 30 s1 s2);
    try reflexivity; split; reflexivity.
Defined.

(** ** The transmitter, byte by byte *)

Lemma land_ones_u8 (x : Z) (n : Z) :
  0 <= n <= 8 -> u8 (u8 (Z.land x (Z.ones n))) = x mod 2 ^ n.
Proof.
  intros Hn. unfold u8. rewrite Z.land_ones by lia.
  assert (H : 0 <= x mod 2 ^ n < 2 ^ n) by (apply Z.mod_pos_bound; lia).
  assert (H8 : 2 ^ n <= 2 ^ 8) by (apply Z.pow_le_mono_r; lia).
  change (2 ^ 8) with 256 in H8.
  assert (Hb : 0 <= x mod 2 ^ n < 256) by lia.
  rewrite (Z.mod_small (x mod 2 ^ n) 256 Hb).
  apply (Z.mod_small (x mod 2 ^ n) 256 Hb).
Qed.

(** X10: what one call of the transmitter puts on the wire, for every
    counter.  Sixteen bytes are appended to what was sent before: the
    status bytes are F1 F1 F3 F3 F5 F5 F7 F7, the data bytes that follow
    them are frames mod 16, 0, seconds mod 16, 0, minutes mod 16, 0,
    hours mod 32 and hours mod 32 divided by 16.  Nothing else in the
    state changes, and of frames, seconds and minutes nothing above the
    low four bits is sent. *)
Theorem transmitter_bytes (s : state) :
  sendMTCQuarterFrame s =
    set_UDR0_sent
      (UDR0_sent s ++
       [ 0xF1; frameCount s mod 16; 0xF1; 0;
         0xF3; secondCount s mod 16; 0xF3; 0;
         0xF5; minuteCount s mod 16; 0xF5; 0;
         0xF7; hourCount s mod 32; 0xF7; hourCount s mod 32 / 16 ]) s.
Proof.
  rewrite sendMTCQuarterFrame_sends. f_equal. f_equal.
  unfold quarter_frame_bytes. cbv zeta.
  rewrite !land_15_shiftr_4.
  change 0x0F with (Z.ones 4). change 0x1F with (Z.ones 5).
  rewrite !land_ones_u8 by lia.
  change (2 ^ 4) with 16. change (2 ^ 5) with 32.
  assert (H : u8 (Z.shiftr (u8 (Z.land (hourCount s) (Z.ones 5))) 4)
              = hourCount s mod 32 / 16).
  { assert (E : u8 (Z.land (hourCount s) (Z.ones 5)) = hourCount s mod 32).
    { unfold u8. rewrite Z.land_ones by lia. change (2 ^ 5) with 32.
      apply Z.mod_small.
      assert (0 <= hourCount s mod 32 < 32)
        by (apply Z.mod_pos_bound; lia).
      lia. }
    rewrite E, Z.shiftr_div_pow2 by lia. change (2 ^ 4) with 16.
    assert (B : 0 <= hourCount s mod 32 < 32)
      by (apply Z.mod_pos_bound; lia).
    unfold u8. apply Z.mod_small.
    Z.to_euclidean_division_equations. lia. }
  rewrite H. reflexivity.
Qed.

(** ** The menu *)

Lemma setLTCLevel_timecode (s : state) : timecode (setLTCLevel s) = timecode s.
Proof.
  unfold setLTCLevel. destruct (bitCount s <? 80); cbn.
  - destruct (u8 _ =? 0); reflexivity.
  - reflexivity.
Qed.

(** A fast tick at one of the menu's frame rates keeps the counter a
    time of day with a frame count below 30. *)
Lemma TIMER1_valid_30 (FPS : Z) (s : state) :
  In FPS [24; 25; 30; 29] -> valid 30 s ->
  valid 30 (TIMER1_COMPA_vect FPS s).
Proof.
  intros HF Hv.
  assert (HF' : 1 <= FPS <= 30) by (cbn in HF; lia).
  unfold TIMER1_COMPA_vect.
  destruct (negb (clockPaused s) && clockStarted s); [|exact Hv].
  assert (Hs : valid 30 (setLTCLevel s))
    by (apply (valid_timecode 30 s);
        [symmetry; apply setLTCLevel_timecode | exact Hv]).
  destruct (bitCount (setLTCLevel s) =? 80); [|exact Hs].
  destruct Hs as (Hh & Hm & Hsec & Hf).
  destruct (timeUpdate_heals FPS (setLTCLevel s))
    as ((Vh & Vm & Vs & Vf) & _); try assumption; try lia.
  - unfold byte. lia.
  - unfold valid. repeat split; lia.
Qed.

Lemma format_02d_two_digits (n : Z) :
  0 <= n < 100 ->
  Menu.format_02d n =
    String.String (Menu.digit (n / 10))
      (String.String (Menu.digit (n mod 10)) String.EmptyString).
Proof.
  intros Hn. unfold Menu.format_02d, Menu.decimal.
  destruct (Z.ltb_spec n 10).
  - rewrite Z.div_small, Z.mod_small by lia. reflexivity.
  - replace (n <? 100) with true by (symmetry; apply Z.ltb_lt; lia).
    reflexivity.
Qed.

(** The counter fits the display buffer. *)
Lemma displayTimecode_fits (d : Menu.device) :
  valid 30 (Menu.core d) ->
  exists text,
    Menu.displayTimecode d = Some (Menu.set_screen [text] d) /\
    (Menu.displaySMPTE d = true -> String.length text = 18%nat).
Proof.
  intros (Hh & Hm & Hs & Hf). unfold Menu.displayTimecode.
  destruct (Menu.displaySMPTE d).
  - rewrite !format_02d_two_digits by lia. cbn.
    eexists. split; [reflexivity|]. intros _. reflexivity.
  - eexists. split; [reflexivity|]. intros H. discriminate H.
Qed.

(** Membership in one of the option tables. *)
Ltac in_table :=
  unfold Menu.FPS_24, Menu.FPS_25, Menu.FPS_30, Menu.FPS_2997,
    Menu.MENU_MAIN, Menu.MENU_SMPTE_FPS, Menu.MENU_MIDI_PPQN,
    Menu.MENU_DISPLAY_TYPE;
  cbn [In]; first [assumption | lia | tauto].

Lemma menu_boot_in_range (o : Z) : Menu.in_range (Menu.boot o).
Proof.
  unfold Menu.in_range, valid. cbn.
  repeat split; try lia; in_table.
Qed.

Lemma TIMER0_in_range (n p s b : bool) (d : Menu.device) :
  Menu.in_range d ->
  exists d',
    Menu.TIMER0_COMPA_vect n p s b d = Some d' /\
    Menu.in_range d' /\ Menu.core d' = Menu.core d.
Proof.
  destruct d as [c ms it act fps ppq dsp scr].
  unfold Menu.in_range. cbn.
  intros (Hit & Hms & Hfps & Hppq & Hv).
  assert (Hi : it = 0 \/ it = 1 \/ it = 2 \/ it = 3) by lia.
  assert (Hm : ms = 0 \/ ms = 1 \/ ms = 2 \/ ms = 3) by lia.
  clear Hit Hms.
  destruct Hi as [-> | [-> | [-> | ->]]];
    destruct Hm as [-> | [-> | [-> | ->]]];
    destruct act, n, p, s, b; cbn;
    (eexists; split; [reflexivity|]; cbn;
     repeat split; try lia; try assumption; try apply Hv; in_table).
Qed.

Lemma menu_loop_in_range (a b : bool) (d : Menu.device) :
  Menu.in_range d ->
  exists d', Menu.loop a b d = Some d' /\ Menu.in_range d'.
Proof.
  intros (Hit & Hms & Hfps & Hppq & Hv). unfold Menu.loop.
  destruct (Menu.menuActive d); cbn [negb].
  - eexists. split; [reflexivity|].
    destruct d. unfold Menu.in_range, Menu.displayMenu. cbn in *.
    repeat split; try lia; auto; apply Hv.
  - assert (Hv' : valid 30 (loop a b (Menu.core d))).
    { apply (valid_timecode 30 (Menu.core d)); [|exact Hv].
      symmetry. apply loop_frame. }
    destruct (displayTimecode_fits
                (Menu.set_core (loop a b (Menu.core d)) d))
      as (text & E & _).
    { destruct d. exact Hv'. }
    eexists. split; [exact E|].
    destruct d. unfold Menu.in_range. cbn in *.
    repeat split; try lia; auto; apply Hv'.
Qed.

Lemma menu_tick_in_range (d : Menu.device) :
  Menu.in_range d -> Menu.in_range (Menu.TIMER1_COMPA_vect d).
Proof.
  intros (Hit & Hms & Hfps & Hppq & Hv).
  assert (Hv' := TIMER1_valid_30 _ _ Hfps Hv).
  destruct d. unfold Menu.in_range, Menu.TIMER1_COMPA_vect. cbn in *.
  repeat split; try lia; auto; apply Hv'.
Qed.

Lemma menu_reachable_in_range (d : Menu.device) :
  Menu.reachable d -> Menu.in_range d.
Proof.
  intros Hr.
  induction Hr as [o Ho | n p s b d d' Hd IH E | a b d d' Hd IH E | d Hd IH].
  - apply menu_boot_in_range.
  - destruct (TIMER0_in_range n p s b d IH) as (d'' & E' & R & _).
    rewrite E in E'. injection E' as <-. exact R.
  - destruct (menu_loop_in_range a b d IH) as (d'' & E' & R).
    rewrite E in E'. injection E' as <-. exact R.
  - apply menu_tick_in_range. exact IH.
Qed.

(** X11: in the revision with the menu, whatever the buttons do, the
    menu variables stay in range: the cursor [menuSelectedItem] and
    [menuState] are between 0 and 3, [selectedFPS] is one of 24, 25, 30
    and 29, and [selectedPPQN] is one of 24, 48, 96 and 120.  The fifth
    entry of the PPQN table, 192, can never be selected, because the
    cursor cycles through four positions in every menu.  The counter
    stays a valid time of day with a frame count below 30, also across
    changes of the frame rate. *)
Theorem menu_stays_in_range (d : Menu.device) :
  Menu.reachable d ->
  0 <= Menu.menuSelectedItem d <= 3 /\
  0 <= Menu.menuState d <= 3 /\
  In (Menu.selectedFPS d) [24; 25; 30; 29] /\
  In (Menu.selectedPPQN d) [24; 48; 96; 120] /\
  Menu.selectedPPQN d <> 192 /\
  valid 30 (Menu.core d).
Proof.
  intros Hr.
  destruct (menu_reachable_in_range d Hr) as (H1 & H2 & H3 & H4 & H5).
  repeat (split; [assumption|]).
  split; [|exact H5]. cbn in H4. lia.
Qed.

Lemma menu_stays_in_range_witness :
  let d := Menu.boot 0 in
  match Menu.TIMER0_COMPA_vect false false true false d with
  | Some d1 =>
      match Menu.TIMER0_COMPA_vect true false true false d1 with
      | Some d2 =>
          Menu.reachable d2 /\ Menu.menuState d2 = Menu.MENU_MIDI_PPQN /\
          0 <= Menu.menuSelectedItem d2 <= 3
      | None => False
      end
  | None => False
  end.
Proof.
  cbn.
  assert (Hr : Menu.reachable
                 (Menu.mkDevice (boot 0) Menu.MENU_MIDI_PPQN 0 true
                    Menu.FPS_30 24 true [])).
  { apply (Menu.reach_menu_tick true false true false
             (Menu.mkDevice (boot 0) Menu.MENU_MAIN 0 true Menu.FPS_30 24
                true [])); [|reflexivity].
    apply (Menu.reach_menu_tick false false true false (Menu.boot 0));
      [|reflexivity].
    apply Menu.reach_boot. unfold byte. lia. }
  split; [exact Hr|]. split; [reflexivity|].
  apply (menu_stays_in_range _ Hr).
Defined.

(** X12: in the revision with the menu no step runs into undefined
    behaviour.  In every reachable state the menu interrupt is defined
    for all four buttons (the reads of [smpteFpsOptions] and
    [midiPpqnOptions] are inside the tables), and a pass of [loop] is
    defined (the text [sprintf] writes fits [buffer[20]]); when the
    menu is closed and the display shows SMPTE, that text has 18
    characters. *)
Theorem menu_steps_defined (d : Menu.device) :
  Menu.reachable d ->
  (forall n p s b, Menu.TIMER0_COMPA_vect n p s b d <> None) /\
  (forall a b, Menu.loop a b d <> None) /\
  (Menu.menuActive d = false -> Menu.displaySMPTE d = true ->
   forall a b, exists text,
     option_map Menu.screen (Menu.loop a b d) = Some [text] /\
     String.length text = 18%nat).
Proof.
  intros Hr.
  assert (H := menu_reachable_in_range d Hr).
  assert (H5 : valid 30 (Menu.core d)) by apply H.
  split; [|split].
  - intros n p s b E.
    destruct (TIMER0_in_range n p s b d H) as (d' & E' & _).
    rewrite E in E'. discriminate E'.
  - intros a b E.
    destruct (menu_loop_in_range a b d H) as (d' & E' & _).
    rewrite E in E'. discriminate E'.
  - intros Ha Hd a b. unfold Menu.loop. rewrite Ha. cbn [negb].
    assert (Hv' : valid 30 (loop a b (Menu.core d))).
    { apply (valid_timecode 30 (Menu.core d)); [|exact H5].
      symmetry. apply loop_frame. }
    destruct (displayTimecode_fits
                (Menu.set_core (loop a b (Menu.core d)) d))
      as (text & E & L).
    { destruct d. exact Hv'. }
    exists text. rewrite E. split; [reflexivity|].
    apply L. destruct d. exact Hd.
Qed.

Lemma menu_steps_defined_witness :
  Menu.TIMER0_COMPA_vect true true true true (Menu.boot 0) <> None /\
  Menu.loop true false (Menu.boot 0) <> None.
Proof.
  assert (Hr : Menu.reachable (Menu.boot 0))
    by (apply Menu.reach_boot; unfold byte; lia).
  destruct (menu_steps_defined (Menu.boot 0) Hr) as (H1 & H2 & _).
  split; [apply H1 | apply H2].
Defined.

Lemma TIMER1_UDR0_sent (FPS : Z) (s : state) :
  UDR0_sent (TIMER1_COMPA_vect FPS s) = UDR0_sent s.
Proof.
  unfold TIMER1_COMPA_vect.
  destruct (negb (clockPaused s) && clockStarted s); [|reflexivity].
  destruct (setLTCLevel_rest s) as (_ & E).
  destruct (bitCount (setLTCLevel s) =? 80); [|exact E].
  destruct (timeUpdate_frame FPS (setLTCLevel s))
    as (_ & _ & _ & _ & _ & _ & _ & _ & E').
  congruence.
Qed.

Lemma TIMER0_keeps_menu_open (n p s b : bool) (d d' : Menu.device) :
  Menu.menuActive d = true ->
  Menu.TIMER0_COMPA_vect n p s b d = Some d' ->
  Menu.menuActive d' = true /\ Menu.core d' = Menu.core d.
Proof.
  destruct d as [c ms it act fps ppq dsp scr]. cbn. intros ->.
  unfold Menu.TIMER0_COMPA_vect, Menu.navigateMenu, Menu.selectMenuItem,
    Menu.backMenu.
  destruct n, p, s, b; cbn;
    repeat match goal with
           | |- context [if ?c then _ else _] => destruct c; cbn
           | |- context [match Menu.table_get ?i ?l with _ => _ end] =>
               destruct (Menu.table_get i l); cbn
           end;
    intros E; try discriminate E; injection E as <-; split; reflexivity.
Qed.

(** X13: nothing closes the menu.  Once [menuActive] is true it stays
    true through every later menu interrupt, pass of [loop] and fast
    tick; from then on [loop] only redraws the menu, so the start and
    stop buttons are never acted on again: the transport state stays
    what it was when the menu opened, and no further MIDI byte is
    sent. *)
Theorem menu_never_closes (d d' : Menu.device) :
  Menu.menuActive d = true -> Menu.later d d' ->
  Menu.menuActive d' = true /\
  transportState (Menu.core d') = transportState (Menu.core d) /\
  UDR0_sent (Menu.core d') = UDR0_sent (Menu.core d).
Proof.
  intros Ha Hl.
  induction Hl as [| n p s b d1 d2 Hl IH E | a b d1 d2 Hl IH E | d1 Hl IH].
  - repeat split. exact Ha.
  - destruct IH as (A & T & U).
    destruct (TIMER0_keeps_menu_open n p s b d1 d2 A E) as (A' & C).
    rewrite C. repeat split; assumption.
  - destruct IH as (A & T & U).
    unfold Menu.loop in E. rewrite A in E. cbn in E.
    injection E as <-. destruct d1. cbn in *. repeat split; assumption.
  - destruct IH as (A & T & U).
    destruct d1 as [c ms it act fps ppq dsp scr]. cbn in *.
    rewrite TIMER1_transportState, TIMER1_UDR0_sent.
    repeat split; assumption.
Qed.

Lemma menu_never_closes_witness :
  let d := Menu.mkDevice (loop true false (boot 0)) Menu.MENU_MAIN 0 true
             Menu.FPS_30 24 true [] in
  match Menu.loop false true (Menu.TIMER1_COMPA_vect d) with
  | Some d' =>
      Menu.menuActive d' = true /\
      transportState (Menu.core d') = TRANSPORT_RUNNING
  | None => False
  end.
Proof.
  cbn.
  set (d := Menu.mkDevice (loop true false (boot 0)) Menu.MENU_MAIN 0 true
              Menu.FPS_30 24 true []).
  assert (Hl : Menu.later d
                 (Menu.displayMenu (Menu.TIMER1_COMPA_vect d))).
  { apply (Menu.later_loop d false true (Menu.TIMER1_COMPA_vect d));
      [|reflexivity].
    apply Menu.later_tick, Menu.later_now. }
  destruct (menu_never_closes d _ eq_refl Hl) as (H1 & H2 & _).
  split; [exact H1 | exact H2].
Defined.

(** X14: the menu cursor moves on a ring of four.  For a cursor between
    0 and 3, the next button takes it to [(cursor + 1) mod 4], previous
    undoes next and next undoes previous, both buttons in one call
    leave it where it was, and four presses of next come back to the
    start.  From any eight-bit cursor value next lands in 0..3. *)
Theorem navigateMenu_ring (d : Menu.device) :
  0 <= Menu.menuSelectedItem d <= 3 ->
  Menu.menuSelectedItem (Menu.navigateMenu true false d)
    = (Menu.menuSelectedItem d + 1) mod 4 /\
  Menu.navigateMenu false true (Menu.navigateMenu true false d) = d /\
  Menu.navigateMenu true false (Menu.navigateMenu false true d) = d /\
  Menu.navigateMenu true true d = d /\
  Nat.iter 4 (Menu.navigateMenu true false) d = d.
Proof.
  destruct d as [c ms it act fps ppq dsp scr]. cbn [Menu.menuSelectedItem].
  intros Hit.
  assert (Hi : it = 0 \/ it = 1 \/ it = 2 \/ it = 3) by lia.
  destruct Hi as [-> | [-> | [-> | ->]]]; repeat split; reflexivity.
Qed.

Lemma navigateMenu_ring_witness :
  let d := Menu.set_menuSelectedItem 3 (Menu.boot 0) in
  Menu.menuSelectedItem (Menu.navigateMenu true false d) = 0 /\
  Menu.navigateMenu false true (Menu.navigateMenu true false d) = d.
Proof.
  intros d.
  destruct (navigateMenu_ring d) as (H1 & H2 & _); [unfold d; cbn; lia|].
  split; [exact H1 | exact H2].
Defined.

(** X15: what [displayMenu] marks.  For a menu state between 0 and 3
    and a cursor that is not negative, the display shows the heading
    and as many entries as the menu has (3, 4, 5 or 2), and exactly one
    entry carries the mark [>] when the cursor is below the number of
    entries, none otherwise.  So with the cursor on position 3 the main
    menu shows no mark, and neither does the display-type menu on
    positions 2 and 3. *)
Theorem displayMenu_marks (d : Menu.device) :
  0 <= Menu.menuState d <= 3 -> 0 <= Menu.menuSelectedItem d ->
  List.length (Menu.screen (Menu.displayMenu d))
    = S (Z.to_nat (Menu.entries (Menu.menuState d))) /\
  List.length (filter Menu.marked (Menu.screen (Menu.displayMenu d)))
    = (if Menu.menuSelectedItem d <? Menu.entries (Menu.menuState d)
       then 1%nat else 0%nat).
Proof.
  destruct d as [c ms it act fps ppq dsp scr]. cbn [Menu.menuState
    Menu.menuSelectedItem]. intros Hms Hit.
  assert (Hm : ms = 0 \/ ms = 1 \/ ms = 2 \/ ms = 3) by lia.
  assert (Hi : it = 0 \/ it = 1 \/ it = 2 \/ it = 3 \/ it = 4 \/ 5 <= it)
    by lia.
  destruct Hi as [-> | [-> | [-> | [-> | [-> | Hbig]]]]];
    try (destruct Hm as [-> | [-> | [-> | ->]]]; split; reflexivity).
  assert (E0 : (it =? 0) = false) by (apply Z.eqb_neq; lia).
  assert (E1 : (it =? 1) = false) by (apply Z.eqb_neq; lia).
  assert (E2 : (it =? 2) = false) by (apply Z.eqb_neq; lia).
  assert (E3 : (it =? 3) = false) by (apply Z.eqb_neq; lia).
  assert (E4 : (it =? 4) = false) by (apply Z.eqb_neq; lia).
  assert (L : forall k, k <= 5 -> (it <? k) = false)
    by (intros k Hk; apply Z.ltb_ge; lia).
  unfold Menu.displayMenu, Menu.entry_line, Menu.entries.
  destruct Hm as [-> | [-> | [-> | ->]]];
    cbn [Menu.menuSelectedItem Menu.menuState map combine fst snd
         Menu.smpteFpsLabels Menu.midiPpqnLabels];
    rewrite ?E0, ?E1, ?E2, ?E3, ?E4; cbn -[Z.ltb];
    rewrite L by lia; split; reflexivity.
Qed.

Lemma displayMenu_marks_witness :
  let d := Menu.set_menuSelectedItem 3 (Menu.set_menuActive true (Menu.boot 0)) in
  List.length (filter Menu.marked (Menu.screen (Menu.displayMenu d))) = 0%nat /\
  Menu.selectMenuItem d = Some d.
Proof.
  intros d.
  destruct (displayMenu_marks d) as (_ & H);
    [unfold d; cbn; unfold Menu.MENU_MAIN; lia | unfold d; cbn; lia |].
  split; [exact H | reflexivity].
Defined.

(** ** Frames per tick *)

Lemma one_cycle (FPS : Z) (s : state) :
  running s -> bitCount s = 0 ->
  running (Nat.iter 81 (TIMER1_COMPA_vect FPS) s) /\
  bitCount (Nat.iter 81 (TIMER1_COMPA_vect FPS) s) = 0 /\
  timecode (Nat.iter 81 (TIMER1_COMPA_vect FPS) s)
    = timecode (timeUpdate FPS s).
Proof.
  intros Hr Hz.
  destruct (ticks_before_79 FPS 79 s Hr) as (R79 & B79 & T79); [lia | lia |].
  rewrite Hz in B79. change (0 + Z.of_nat 79) with 79 in B79.
  rewrite (Nat.iter_succ 80 state (TIMER1_COMPA_vect FPS) s).
  rewrite (Nat.iter_succ 79 state (TIMER1_COMPA_vect FPS) s).
  set (s79 := Nat.iter 79 (TIMER1_COMPA_vect FPS) s) in *.
  destruct (tick_at_79 FPS s79 R79 B79) as (_ & B80 & T80).
  assert (R80 := TIMER1_keeps_running FPS s79 R79).
  destruct (tick_at_80 FPS _ R80) as (_ & B81 & _ & T81); [lia|].
  split; [apply TIMER1_keeps_running; exact R80|].
  split; [exact B81|].
  rewrite T81, T80. apply timeUpdate_timecode. exact T79.
Qed.

(** X16: the encoder advances the counter one frame per 81 fast ticks,
    for as long as it runs.  From a started, unpaused clock with the
    cursor at 0, after [81 * k] ticks the cursor is at 0 again and the
    counter is what [k] calls of [timeUpdate] make of it. *)
Theorem ticks_count_frames (FPS : Z) (k : nat) (s : state) :
  running s -> bitCount s = 0 ->
  running (Nat.iter (81 * k) (TIMER1_COMPA_vect FPS) s) /\
  bitCount (Nat.iter (81 * k) (TIMER1_COMPA_vect FPS) s) = 0 /\
  timecode (Nat.iter (81 * k) (TIMER1_COMPA_vect FPS) s)
    = timecode (Nat.iter k (timeUpdate FPS) s).
Proof.
  intros Hr Hz. induction k as [|k (IHr & IHb & IHt)].
  - rewrite Nat.mul_0_r. repeat split; try apply Hr. exact Hz.
  - replace (81 * S k)%nat with (81 + 81 * k)%nat by lia.
    rewrite Nat.iter_add.
    destruct (one_cycle FPS _ IHr IHb) as (R & B & T).
    split; [exact R|]. split; [exact B|].
    rewrite T, Nat.iter_succ. apply timeUpdate_timecode. exact IHt.
Qed.

Lemma ticks_count_frames_witness :
  let s := loop true false (boot 0) in
  bitCount (Nat.iter (81 * 30) (TIMER1_COMPA_vect 30) s) = 0 /\
  timecode (Nat.iter (81 * 30) (TIMER1_COMPA_vect 30) s)
    = timecode (Nat.iter 30 (timeUpdate 30) s).
Proof.
  intros s.
  destruct (ticks_count_frames 30 30 s) as (_ & H2 & H3);
    [split; reflexivity | reflexivity |].
  split; [exact H2 | exact H3].
Defined.
